(** * Order-status aggregation service (services/status-service/main.go)

    A shallow embedding of the status service's [StatusManager]: the
    event-application path ([UpdateOrderStatus], [notifyClients],
    [AddClient]) and the query path ([GetFilteredOrders], [GetStatistics],
    [SearchOrders] and the HTTP handler [searchOrders]).

    Modelling decisions, all local to this file:

    - every method of [StatusManager] runs under [sm.mu]; the model is the
      sequential semantics of one critical section, as a function from the
      state before to the state after;
    - [float64] is Rocq's primitive binary64 [float], Go's [int] is [Z];
    - [time.Time] is the number of nanoseconds since the zero time
      (January 1, year 1, 00:00:00 UTC), an unbounded [Z]; the two calls of
      [time.Now()] in [UpdateOrderStatus] are two clock readings passed in;
    - a decoded JSON document is a [JSON] tree, a payload
      ([map[string]interface{}]) a [gmap string JSON]. The payload handed to
      [UpdateOrderStatus] always comes from [json.Unmarshal]
      ([consumeEvents]), and on such values [json.Marshal] followed by
      [json.Unmarshal] gives the value back, so the re-decoded maps
      [orderData], [paymentData], [shippingData] are the payload itself and
      an [EventRecord] keeps the payload for its serialisation [Data];
    - [range sm.orders] visits the entries of a Go map in an unspecified
      order: the query functions take the sequence [vs] of visited orders,
      and [ranges sm vs] says that [vs] is one such enumeration;
    - a websocket connection is an identifier; the [Net] records, in order,
      every message written successfully and the set of connections whose
      transport is gone (on which [WriteMessage] fails);
    - a message ([json.Marshal(order)]) is the snapshot it serialises. *)

From Stdlib Require Import ZArith String Ascii Floats.
From stdpp Require Import gmap strings list fin_maps sorting.

Set Warnings "-inexact-float,-register-all".
Open Scope Z_scope.

(** ** The time package, as far as the service uses it *)

Module time.

Definition Time : Type := Z.
Definition Duration : Type := Z.

Definition Second : Duration := 1000000000.
Definition Minute : Duration := 60 * Second.
Definition Hour : Duration := 60 * Minute.

Definition IsZero (t : Time) : bool := t =? 0.
Definition After (t u : Time) : bool := u <? t.
Definition Before (t u : Time) : bool := t <? u.
Definition Add (t : Time) (d : Duration) : Time := t + d.

(** [time.Parse("2006-01-02", s)]: four digits, a dash, two digits, a
    dash, two digits and nothing else; the month in 1..12 and the day in
    1..[daysIn month year]; the result is midnight UTC of that day. *)

Definition isDigit (c : ascii) : bool :=
  let n := Z.of_nat (nat_of_ascii c) in (48 <=? n) && (n <=? 57).

Definition digit (c : ascii) : Z := Z.of_nat (nat_of_ascii c) - 48.

Definition isLeap (year : Z) : bool :=
  (year mod 4 =? 0) && (negb (year mod 100 =? 0) || (year mod 400 =? 0)).

Definition daysIn (month year : Z) : Z :=
  if month =? 2 then (if isLeap year then 29 else 28)
  else if (month =? 4) || (month =? 6) || (month =? 9) || (month =? 11)
       then 30 else 31.

(** Days of a non-leap year before the first of [month]. *)
Definition daysBefore (month : Z) : Z :=
  nth (Z.to_nat (month - 1))
      [0; 31; 59; 90; 120; 151; 181; 212; 243; 273; 304; 334] 0.

(** Days from January 1 of year 1 to the given day. *)
Definition daysSinceZero (year month day : Z) : Z :=
  let y := year - 1 in
  365 * y + y / 4 - y / 100 + y / 400
  + daysBefore month
  + (if isLeap year && (2 <? month) then 1 else 0)
  + (day - 1).

Definition Date (year month day : Z) : Time :=
  daysSinceZero year month day * 24 * Hour.

Definition Parse_date (s : string) : option Time :=
  match list_ascii_of_string s with
  | [y1; y2; y3; y4; d1; m1; m2; d2; a1; a2] =>
      if forallb isDigit [y1; y2; y3; y4; m1; m2; a1; a2]
         && Ascii.eqb d1 "-"%char && Ascii.eqb d2 "-"%char
      then
        let year := 1000 * digit y1 + 100 * digit y2 + 10 * digit y3 + digit y4 in
        let month := 10 * digit m1 + digit m2 in
        let day := 10 * digit a1 + digit a2 in
        if (month <=? 0) || (12 <? month) then None
        else if (day <? 1) || (daysIn month year <? day) then None
        else Some (Date year month day)
      else None
  | _ => None
  end.

End time.

(** ** Decoded JSON *)

Inductive JSON : Type :=
| JNull
| JBool (b : bool)
| JNumber (f : float)
| JString (s : string)
| JArray (l : list JSON)
| JObject (l : list (string * JSON)).

(** The type assertions [v.(string)] and [v.(float64)] on a map entry. *)
Definition as_string (v : option JSON) : option string :=
  match v with Some (JString s) => Some s | _ => None end.

Definition as_float64 (v : option JSON) : option float :=
  match v with Some (JNumber f) => Some f | _ => None end.

(** [int(f)] for a [float64]: truncation toward zero; outside the range of
    [int64] (and for NaN and the infinities) the result is the one amd64
    produces, the least [int64]. *)
Definition int_of_float64 (f : float) : Z :=
  let min64 := - 2 ^ 63 in
  match Prim2SF f with
  | S754_zero _ => 0
  | S754_finite s m e =>
      let a := if 0 <=? e then Z.pos m * 2 ^ e else Z.pos m / 2 ^ (- e) in
      let v := if s then - a else a in
      if (min64 <=? v) && (v <? 2 ^ 63) then v else min64
  | _ => min64
  end.

(** [float64(n)] for a count [n]. *)
Definition float64_of_nat (n : nat) : float :=
  PrimFloat.of_uint63 (Uint63.of_Z (Z.of_nat n)).

(** ** Data model *)

Record EventRecord : Type := {
  EventType : string;
  Data : gmap string JSON;
  Timestamp : time.Time
}.

Record OrderStatus : Type := {
  OrderID : string;
  ProductID : string;
  Quantity : Z;
  Status : string;
  Events : list EventRecord;
  LastUpdated : time.Time;
  TrackingNumber : string;
  PaymentAmount : float
}.

Definition Conn : Type := nat.

Record StatusManager : Type := {
  orders : gmap string OrderStatus;
  clients : gmap string (list Conn)
}.

Definition NewStatusManager : StatusManager :=
  {| orders := ∅; clients := ∅ |}.

(** Field assignments on an order. *)
Definition set_ProductID (o : OrderStatus) (p : string) : OrderStatus :=
  {| OrderID := OrderID o; ProductID := p; Quantity := Quantity o;
     Status := Status o; Events := Events o; LastUpdated := LastUpdated o;
     TrackingNumber := TrackingNumber o; PaymentAmount := PaymentAmount o |}.

Definition set_Quantity (o : OrderStatus) (q : Z) : OrderStatus :=
  {| OrderID := OrderID o; ProductID := ProductID o; Quantity := q;
     Status := Status o; Events := Events o; LastUpdated := LastUpdated o;
     TrackingNumber := TrackingNumber o; PaymentAmount := PaymentAmount o |}.

Definition set_Status (o : OrderStatus) (s : string) : OrderStatus :=
  {| OrderID := OrderID o; ProductID := ProductID o; Quantity := Quantity o;
     Status := s; Events := Events o; LastUpdated := LastUpdated o;
     TrackingNumber := TrackingNumber o; PaymentAmount := PaymentAmount o |}.

Definition set_Events (o : OrderStatus) (es : list EventRecord) : OrderStatus :=
  {| OrderID := OrderID o; ProductID := ProductID o; Quantity := Quantity o;
     Status := Status o; Events := es; LastUpdated := LastUpdated o;
     TrackingNumber := TrackingNumber o; PaymentAmount := PaymentAmount o |}.

Definition set_LastUpdated (o : OrderStatus) (t : time.Time) : OrderStatus :=
  {| OrderID := OrderID o; ProductID := ProductID o; Quantity := Quantity o;
     Status := Status o; Events := Events o; LastUpdated := t;
     TrackingNumber := TrackingNumber o; PaymentAmount := PaymentAmount o |}.

Definition set_TrackingNumber (o : OrderStatus) (t : string) : OrderStatus :=
  {| OrderID := OrderID o; ProductID := ProductID o; Quantity := Quantity o;
     Status := Status o; Events := Events o; LastUpdated := LastUpdated o;
     TrackingNumber := t; PaymentAmount := PaymentAmount o |}.

Definition set_PaymentAmount (o : OrderStatus) (a : float) : OrderStatus :=
  {| OrderID := OrderID o; ProductID := ProductID o; Quantity := Quantity o;
     Status := Status o; Events := Events o; LastUpdated := LastUpdated o;
     TrackingNumber := TrackingNumber o; PaymentAmount := a |}.

(** ** The subscribers' transport *)

Record Net : Type := {
  wire : list (Conn * OrderStatus);
  gone : gset Conn
}.

(** [conn.WriteMessage(websocket.TextMessage, message)]: the Boolean is
    [err == nil]. *)
Definition WriteMessage (net : Net) (conn : Conn) (message : OrderStatus)
  : Net * bool :=
  if bool_decide (conn ∈ gone net) then (net, false)
  else ({| wire := wire net ++ [(conn, message)]; gone := gone net |}, true).

(** [conn.Close()]. *)
Definition Close (net : Net) (conn : Conn) : Net :=
  {| wire := wire net; gone := {[conn]} ∪ gone net |}.

(** The messages delivered to one connection, oldest first. *)
Definition received (net : Net) (conn : Conn) : list OrderStatus :=
  (filter (λ p, p.1 = conn) (wire net)).*2.

(** ** Applying an event: [UpdateOrderStatus] and [notifyClients] *)

(** The order materialised for an identifier seen for the first time. *)
Definition new_order (orderID : string) : OrderStatus :=
  {| OrderID := orderID; ProductID := ""; Quantity := 0;
     Status := "created"; Events := []; LastUpdated := 0;
     TrackingNumber := ""; PaymentAmount := 0%float |}.

(** The [switch eventType] statement of [UpdateOrderStatus]. *)
Definition switch_eventType (eventType : string) (data : gmap string JSON)
    (order : OrderStatus) : OrderStatus :=
  if String.eqb eventType "OrderCreated" then
    let order :=
      match as_string (data !! "product_id") with
      | Some productID => set_ProductID order productID
      | None => order
      end in
    let order :=
      match as_float64 (data !! "quantity") with
      | Some quantity => set_Quantity order (int_of_float64 quantity)
      | None => order
      end in
    set_Status order "created"
  else if String.eqb eventType "InventoryConfirmed" then
    set_Status order "inventory_confirmed"
  else if String.eqb eventType "InventoryRejected" then
    set_Status order "inventory_rejected"
  else if String.eqb eventType "PaymentCompleted" then
    let order := set_Status order "payment_completed" in
    match as_float64 (data !! "amount") with
    | Some amount => set_PaymentAmount order amount
    | None => order
    end
  else if String.eqb eventType "PaymentFailed" then
    set_Status order "payment_failed"
  else if String.eqb eventType "NotificationSent" then
    set_Status order "notification_sent"
  else if String.eqb eventType "Shipped" then
    let order := set_Status order "shipped" in
    match as_string (data !! "tracking_number") with
    | Some trackingNumber => set_TrackingNumber order trackingNumber
    | None => order
    end
  else order.

(** One iteration of the loop of [notifyClients]: a failed write closes the
    connection and drops it, a successful one keeps it. *)
Definition notify_step (message : OrderStatus)
    (acc : list Conn * Net) (conn : Conn) : list Conn * Net :=
  let '(activeClients, net) := acc in
  match WriteMessage net conn message with
  | (net', false) => (activeClients, Close net' conn)
  | (net', true) => (activeClients ++ [conn], net')
  end.

Definition notifyClients (sm : StatusManager) (net : Net)
    (orderID : string) (order : OrderStatus) : StatusManager * Net :=
  match clients sm !! orderID with
  | None => (sm, net)
  | Some cs =>
      let '(activeClients, net') := fold_left (notify_step order) cs ([], net) in
      ({| orders := orders sm;
          clients := <[orderID := activeClients]> (clients sm) |}, net')
  end.

(** The order as [UpdateOrderStatus] leaves it: looked up or created, the
    record appended, [LastUpdated] set, the switch applied. [now1] and
    [now2] are the two readings of the clock. *)
Definition updated_order (sm : StatusManager) (orderID eventType : string)
    (data : gmap string JSON) (now1 now2 : time.Time) : OrderStatus :=
  let order :=
    match orders sm !! orderID with
    | Some order => order
    | None => new_order orderID
    end in
  let event := {| EventType := eventType; Data := data; Timestamp := now1 |} in
  let order := set_Events order (Events order ++ [event]) in
  let order := set_LastUpdated order now2 in
  switch_eventType eventType data order.

Definition UpdateOrderStatus (sm : StatusManager) (net : Net)
    (orderID eventType : string) (data : gmap string JSON)
    (now1 now2 : time.Time) : StatusManager * Net :=
  let order := updated_order sm orderID eventType data now1 now2 in
  let sm := {| orders := <[orderID := order]> (orders sm);
               clients := clients sm |} in
  notifyClients sm net orderID order.

(** The body of the loop of [consumeEvents] on a decoded message: it is
    applied only when [order_id] and [event_type] are strings. *)
Definition consumeEvent (sm : StatusManager) (net : Net)
    (eventData : gmap string JSON) (now1 now2 : time.Time)
  : StatusManager * Net :=
  match as_string (eventData !! "order_id") with
  | Some orderID =>
      match as_string (eventData !! "event_type") with
      | Some eventType =>
          UpdateOrderStatus sm net orderID eventType eventData now1 now2
      | None => (sm, net)
      end
  | None => (sm, net)
  end.

Definition AddClient (sm : StatusManager) (net : Net)
    (orderID : string) (conn : Conn) : StatusManager * Net :=
  let cs := match clients sm !! orderID with Some cs => cs | None => [] end in
  let sm' := {| orders := orders sm;
                clients := <[orderID := cs ++ [conn]]> (clients sm) |} in
  match orders sm !! orderID with
  | Some order => (sm', (WriteMessage net conn order).1)
  | None => (sm', net)
  end.

Definition GetOrderStatus (sm : StatusManager) (orderID : string)
  : option OrderStatus := orders sm !! orderID.

Definition DeleteOrder (sm : StatusManager) (orderID : string)
  : StatusManager * bool :=
  match orders sm !! orderID with
  | Some _ => ({| orders := delete orderID (orders sm);
                  clients := delete orderID (clients sm) |}, true)
  | None => (sm, false)
  end.

(** An applied event: the arguments of one call of [UpdateOrderStatus]
    together with the clock readings it takes. *)
Record Event : Type := {
  ev_orderID : string;
  ev_eventType : string;
  ev_data : gmap string JSON;
  ev_now1 : time.Time;
  ev_now2 : time.Time
}.

Definition apply_event (st : StatusManager * Net) (e : Event)
  : StatusManager * Net :=
  UpdateOrderStatus st.1 st.2 (ev_orderID e) (ev_eventType e) (ev_data e)
                    (ev_now1 e) (ev_now2 e).

Definition apply_events (st : StatusManager * Net) (evs : list Event)
  : StatusManager * Net :=
  fold_left apply_event evs st.

(** The record [UpdateOrderStatus] appends for an event. *)
Definition record_of (e : Event) : EventRecord :=
  {| EventType := ev_eventType e; Data := ev_data e; Timestamp := ev_now1 e |}.

(** The transition table of the specification: the status each known event
    kind leads to; [None] for a kind outside the table. *)
Definition transition_table : list (string * string) :=
  [ ("OrderCreated", "created");
    ("InventoryConfirmed", "inventory_confirmed");
    ("InventoryRejected", "inventory_rejected");
    ("PaymentCompleted", "payment_completed");
    ("PaymentFailed", "payment_failed");
    ("NotificationSent", "notification_sent");
    ("Shipped", "shipped") ]%string.

Definition table_status (kind : string) : option string :=
  snd <$> find (λ row, String.eqb kind row.1) transition_table.

(** ** Library functions of the query path *)

(** [strings.ToLower]: exact on ASCII text; the bytes of a multi-byte UTF-8
    sequence are kept as they are. *)
Definition lower_byte (c : ascii) : ascii :=
  let n := nat_of_ascii c in
  if (65 <=? n)%nat && (n <=? 90)%nat then ascii_of_nat (n + 32) else c.

Fixpoint ToLower (s : string) : string :=
  match s with
  | EmptyString => EmptyString
  | String c s' => String (lower_byte c) (ToLower s')
  end.

(** [strings.HasPrefix] and [strings.Contains]. *)
Fixpoint HasPrefix (s prefix : string) {struct prefix} : bool :=
  match prefix, s with
  | EmptyString, _ => true
  | String c prefix', String d s' => Ascii.eqb c d && HasPrefix s' prefix'
  | String _ _, EmptyString => false
  end.

Fixpoint Contains (s substr : string) : bool :=
  HasPrefix s substr
  || match s with
     | EmptyString => false
     | String _ s' => Contains s' substr
     end.

(** [sort.Slice(x, less)]. The library promises a permutation of [x] in
    which no element is [less] than one before it, and no stability. The
    model is the insertion sort the library runs on slices of fewer than
    twelve elements; the theorems below use only the promise. *)
Section sort.
Context {A : Type} (less : A → A → bool).

Fixpoint insert_sorted (x : A) (l : list A) : list A :=
  match l with
  | [] => [x]
  | y :: l' => if less x y then x :: l else y :: insert_sorted x l'
  end.

Definition sort_Slice (l : list A) : list A :=
  fold_left (λ acc x, insert_sorted x acc) l [].
End sort.

(** The comparison every sort of the service uses:
    [result[i].LastUpdated.After(result[j].LastUpdated)]. *)
Definition newer (a b : OrderStatus) : bool :=
  time.After (LastUpdated a) (LastUpdated b).

(** [vs] is an enumeration of the store by [range sm.orders]. *)
Definition ranges (sm : StatusManager) (vs : list OrderStatus) : Prop :=
  vs ≡ₚ (map_to_list (orders sm)).*2.

(** ** [GetFilteredOrders] *)

Module OrderFilter.
Record t : Type := {
  Status : string;
  ProductID : string;
  DateFrom : string;
  DateTo : string;
  Limit : Z;
  Offset : Z
}.
End OrderFilter.

(** [time.Parse] returns the zero [Time] together with an error. *)
Definition Parse_or_zero (s : string) : time.Time :=
  match time.Parse_date s with
  | Some t => t
  | None => 0
  end.

(** The variables [dateFrom] and [dateTo] after the parsing block. *)
Definition filter_dateFrom (filter : OrderFilter.t) : time.Time :=
  if String.eqb (OrderFilter.DateFrom filter) "" then 0
  else Parse_or_zero (OrderFilter.DateFrom filter).

Definition filter_dateTo (filter : OrderFilter.t) : time.Time :=
  if String.eqb (OrderFilter.DateTo filter) "" then 0
  else time.Add (Parse_or_zero (OrderFilter.DateTo filter))
                (23 * time.Hour + 59 * time.Minute + 59 * time.Second).

(** The body of the loop over [sm.orders]: [false] where it [continue]s,
    [true] where it appends a copy of the order. *)
Definition filter_keeps (filter : OrderFilter.t) (dateFrom dateTo : time.Time)
    (v : OrderStatus) : bool :=
  if negb (String.eqb (OrderFilter.Status filter) "")
     && negb (String.eqb (Status v) (OrderFilter.Status filter)) then false
  else if negb (String.eqb (OrderFilter.ProductID filter) "")
          && negb (String.eqb (ProductID v) (OrderFilter.ProductID filter)) then false
  else if negb (time.IsZero dateFrom) && time.Before (LastUpdated v) dateFrom then false
  else if negb (time.IsZero dateTo) && time.After (LastUpdated v) dateTo then false
  else true.

(** The pagination block. *)
Definition paginate (filter : OrderFilter.t) (result : list OrderStatus)
  : list OrderStatus :=
  let offset := OrderFilter.Offset filter in
  let limit := OrderFilter.Limit filter in
  if (0 <? offset) && (Z.of_nat (length result) <=? offset) then []
  else
    let result := if 0 <? offset then drop (Z.to_nat offset) result else result in
    if (0 <? limit) && (limit <? Z.of_nat (length result))
    then take (Z.to_nat limit) result
    else result.

Definition GetFilteredOrders (vs : list OrderStatus) (filter : OrderFilter.t)
  : list OrderStatus :=
  let dateFrom := filter_dateFrom filter in
  let dateTo := filter_dateTo filter in
  let result := List.filter (filter_keeps filter dateFrom dateTo) vs in
  let result := sort_Slice newer result in
  paginate filter result.

(** ** [GetStatistics] *)

Record OrderStatistics : Type := {
  TotalOrders : nat;
  OrdersByStatus : gmap string nat;
  OrdersByProduct : gmap string nat;
  RecentOrders : list OrderStatus;
  TotalRevenue : float;
  AverageOrderValue : float;
  CompletionRate : float
}.

(** The variables the first loop of [GetStatistics] updates. *)
Record StatsLoop : Type := {
  l_TotalOrders : nat;
  l_OrdersByStatus : gmap string nat;
  l_OrdersByProduct : gmap string nat;
  l_totalRevenue : float;
  l_completedOrders : nat;
  l_recentOrders : list OrderStatus
}.

Definition stats_init : StatsLoop :=
  {| l_TotalOrders := 0; l_OrdersByStatus := ∅; l_OrdersByProduct := ∅;
     l_totalRevenue := 0%float; l_completedOrders := 0; l_recentOrders := [] |}.

(** [m[k]++] on a map of counters. *)
Definition incr (k : string) (m : gmap string nat) : gmap string nat :=
  <[k := S (default 0%nat (m !! k))]> m.

(** The condition of the revenue branch. *)
Definition revenue_bearing (order : OrderStatus) : bool :=
  String.eqb (Status order) "payment_completed"
  || String.eqb (Status order) "shipped".

Definition stats_step (st : StatsLoop) (order : OrderStatus) : StatsLoop :=
  {| l_TotalOrders := S (l_TotalOrders st);
     l_OrdersByStatus := incr (Status order) (l_OrdersByStatus st);
     l_OrdersByProduct :=
       if negb (String.eqb (ProductID order) "")
       then incr (ProductID order) (l_OrdersByProduct st)
       else l_OrdersByProduct st;
     l_totalRevenue :=
       if revenue_bearing order
       then (l_totalRevenue st + PaymentAmount order)%float
       else l_totalRevenue st;
     l_completedOrders :=
       if revenue_bearing order
       then S (l_completedOrders st) else l_completedOrders st;
     l_recentOrders :=
       if (length (l_recentOrders st) <? 10)%nat
       then l_recentOrders st ++ [order]
       else l_recentOrders st |}.

(** The statistics without the [ProcessingTime] table, which a second loop
    fills from the event timestamps and none of the other fields reads. *)
Definition GetStatistics (vs : list OrderStatus) : OrderStatistics :=
  let st := fold_left stats_step vs stats_init in
  let recentOrders := sort_Slice newer (l_recentOrders st) in
  let totalRevenue := l_totalRevenue st in
  let completedOrders := l_completedOrders st in
  {| TotalOrders := l_TotalOrders st;
     OrdersByStatus := l_OrdersByStatus st;
     OrdersByProduct := l_OrdersByProduct st;
     RecentOrders := recentOrders;
     TotalRevenue := totalRevenue;
     AverageOrderValue :=
       if (0 <? l_TotalOrders st)%nat
       then (totalRevenue / float64_of_nat completedOrders)%float
       else 0%float;
     CompletionRate :=
       if (0 <? l_TotalOrders st)%nat
       then (float64_of_nat completedOrders
             / float64_of_nat (l_TotalOrders st) * 100)%float
       else 0%float |}.

(** ** [SearchOrders] and its handler *)

Definition search_matches (queryLower : string) (order : OrderStatus) : bool :=
  Contains (ToLower (OrderID order)) queryLower
  || Contains (ToLower (ProductID order)) queryLower
  || Contains (ToLower (Status order)) queryLower
  || Contains (ToLower (TrackingNumber order)) queryLower.

Definition SearchOrders (vs : list OrderStatus) (query : string)
  : list OrderStatus :=
  let queryLower := ToLower query in
  let result := List.filter (search_matches queryLower) vs in
  sort_Slice newer result.



(** ** Notions the properties are stated with *)

(** The event history of an identifier; empty when the store has no such
    order. *)
Definition history (sm : StatusManager) (orderID : string) : list EventRecord :=
  match orders sm !! orderID with
  | Some order => Events order
  | None => []
  end.

(** The events of a sequence that are addressed to one order. *)
Definition addressed_to (orderID : string) (evs : list Event) : list Event :=
  List.filter (λ e, String.eqb (ev_orderID e) orderID) evs.

(** A transport on which nothing was sent and nothing has failed. *)
Definition net0 : Net := {| wire := []; gone := ∅ |}.

(** A payment-completed message that carries the amount under
    [payment_amount], and one that carries it under [amount], the field the
    payment service emits. *)
Definition payment_with_payment_amount : gmap string JSON :=
  <["order_id" := JString "Y"]>
    (<["event_type" := JString "PaymentCompleted"]>
       (<["payment_amount" := JNumber 59.98]> ∅)).

Definition payment_with_amount : gmap string JSON :=
  <["order_id" := JString "Y"]>
    (<["event_type" := JString "PaymentCompleted"]>
       (<["amount" := JNumber 59.98]> ∅)).

(** The statuses of the specification's "payment recognized" set. *)
Definition payment_recognized : list string :=
  ["payment_completed"; "shipped"]%string.

Definition recognized (order : OrderStatus) : Prop :=
  Status order ∈ payment_recognized.

#[global] Instance recognized_dec order : Decision (recognized order).
Proof. unfold recognized. apply _. Defined.

(** The [float64] sum of a sequence, from zero, left to right. *)
Definition sum_float64 (xs : list float) : float :=
  fold_left PrimFloat.add xs 0%float.

(** A percentage that is shown as 66.7 when printed with one decimal. *)
Definition shown_as_66_7 (x : float) : bool :=
  (66.65 <=? x)%float && (x <? 66.75)%float.

(** A payload that carries only an amount. *)
Definition amount_payload (amount : float) : gmap string JSON :=
  <["amount" := JNumber amount]> ∅.

(** Scenario D: two payment-completed orders, of 10.00 and 20.00, and one
    order whose inventory was rejected. *)
Definition scenario_D_events : list Event :=
  [ {| ev_orderID := "A"; ev_eventType := "PaymentCompleted";
       ev_data := amount_payload 10; ev_now1 := 100; ev_now2 := 101 |};
    {| ev_orderID := "B"; ev_eventType := "PaymentCompleted";
       ev_data := amount_payload 20; ev_now1 := 200; ev_now2 := 201 |};
    {| ev_orderID := "C"; ev_eventType := "InventoryRejected";
       ev_data := ∅; ev_now1 := 300; ev_now2 := 301 |} ].

Definition scenario_D : StatusManager :=
  (apply_events (NewStatusManager, net0) scenario_D_events).1.

(** The orders of scenario D, as their events leave them. *)
Definition paid (orderID : string) (amount : float) (now1 now2 : time.Time)
  : OrderStatus :=
  updated_order NewStatusManager orderID "PaymentCompleted"
    (amount_payload amount) now1 now2.

Definition rejected (orderID : string) (now1 now2 : time.Time) : OrderStatus :=
  updated_order NewStatusManager orderID "InventoryRejected" ∅ now1 now2.

(** One enumeration of the store of scenario D. *)
Definition scenario_D_range : list OrderStatus :=
  (map_to_list (orders scenario_D)).*2.

(** A store with a single order, which was created and never paid. *)
Definition unpaid_store : StatusManager :=
  (UpdateOrderStatus NewStatusManager net0 "U" "OrderCreated" ∅ 10 11).1.

Definition unpaid_range : list OrderStatus :=
  (map_to_list (orders unpaid_store)).*2.

(** "Sorted by [last_updated] descending": [a] may stand before [b] when it
    was updated no earlier than [b]. *)
Definition not_older (a b : OrderStatus) : Prop :=
  LastUpdated b ≤ LastUpdated a.

(** The span the code adds to midnight of [date_to]: 23 hours, 59 minutes
    and 59 seconds. *)
Definition end_of_day : time.Duration :=
  23 * time.Hour + 59 * time.Minute + 59 * time.Second.

(** The predicate of a filter. A status or product left empty does not
    constrain. A [date_from] that parses to a day bounds the time of the
    last update from below by midnight of that day (unless that is the zero
    time), and one that does not parse does not constrain. A [date_to] that
    parses to a day bounds it from above by 23:59:59 of that day; one that
    is empty does not constrain, and one that is not empty and does not
    parse bounds it by 23:59:59 of the day of the zero time. *)
Definition in_window (filter : OrderFilter.t) (t : time.Time) : Prop :=
  match time.Parse_date (OrderFilter.DateFrom filter) with
  | Some day => day = 0 ∨ day ≤ t
  | None => True
  end
  ∧ match time.Parse_date (OrderFilter.DateTo filter) with
    | Some day => t ≤ time.Add day end_of_day
    | None => OrderFilter.DateTo filter = "" ∨ t ≤ time.Add 0 end_of_day
    end.

Definition satisfies (filter : OrderFilter.t) (order : OrderStatus) : Prop :=
  (OrderFilter.Status filter = "" ∨ Status order = OrderFilter.Status filter)
  ∧ (OrderFilter.ProductID filter = ""
     ∨ ProductID order = OrderFilter.ProductID filter)
  ∧ in_window filter (LastUpdated order).

#[global] Instance satisfies_dec filter order : Decision (satisfies filter order).
Proof.
  unfold satisfies, in_window.
  destruct (time.Parse_date (OrderFilter.DateFrom filter));
    destruct (time.Parse_date (OrderFilter.DateTo filter)); apply _.
Defined.

(** Pagination as the specification words it: skip [offset] entries, then
    keep at most [limit]; an offset or a limit that is not positive does
    nothing. *)
Definition page (offset limit : Z) (l : list OrderStatus) : list OrderStatus :=
  let rest := drop (Z.to_nat offset) l in
  if 0 <? limit then take (Z.to_nat limit) rest else rest.

(** The order is one of the values of the store. *)
Definition stored (sm : StatusManager) (order : OrderStatus) : Prop :=
  ∃ orderID, orders sm !! orderID = Some order.

(** A store with three orders updated at nanoseconds 10, 20 and 30 after
    midnight of January 15, 2024, and one enumeration of it. *)
Definition jan15_store : StatusManager :=
  (apply_events (NewStatusManager, net0)
     [ {| ev_orderID := "X1"; ev_eventType := "OrderCreated"; ev_data := ∅;
          ev_now1 := time.Date 2024 1 15 + 10;
          ev_now2 := time.Date 2024 1 15 + 10 |};
       {| ev_orderID := "X2"; ev_eventType := "OrderCreated"; ev_data := ∅;
          ev_now1 := time.Date 2024 1 15 + 20;
          ev_now2 := time.Date 2024 1 15 + 20 |};
       {| ev_orderID := "X3"; ev_eventType := "Shipped"; ev_data := ∅;
          ev_now1 := time.Date 2024 1 15 + 30;
          ev_now2 := time.Date 2024 1 15 + 30 |} ]).1.

Definition jan15_range : list OrderStatus :=
  (map_to_list (orders jan15_store)).*2.

Definition filter_created_page : OrderFilter.t :=
  {| OrderFilter.Status := "created"; OrderFilter.ProductID := "";
     OrderFilter.DateFrom := "2024-01-15"; OrderFilter.DateTo := "2024-01-15";
     OrderFilter.Limit := 1; OrderFilter.Offset := 1 |}.

(** A filter with one of its date fields replaced. *)
Definition with_DateFrom (filter : OrderFilter.t) (s : string) : OrderFilter.t :=
  {| OrderFilter.Status := OrderFilter.Status filter;
     OrderFilter.ProductID := OrderFilter.ProductID filter;
     OrderFilter.DateFrom := s;
     OrderFilter.DateTo := OrderFilter.DateTo filter;
     OrderFilter.Limit := OrderFilter.Limit filter;
     OrderFilter.Offset := OrderFilter.Offset filter |}.

Definition with_DateTo (filter : OrderFilter.t) (s : string) : OrderFilter.t :=
  {| OrderFilter.Status := OrderFilter.Status filter;
     OrderFilter.ProductID := OrderFilter.ProductID filter;
     OrderFilter.DateFrom := OrderFilter.DateFrom filter;
     OrderFilter.DateTo := s;
     OrderFilter.Limit := OrderFilter.Limit filter;
     OrderFilter.Offset := OrderFilter.Offset filter |}.

(** The filter that constrains nothing. *)
Definition no_filter : OrderFilter.t :=
  {| OrderFilter.Status := ""; OrderFilter.ProductID := "";
     OrderFilter.DateFrom := ""; OrderFilter.DateTo := "";
     OrderFilter.Limit := 0; OrderFilter.Offset := 0 |}.



(** The order a single creation event at time [t] leaves for [orderID]. *)
Definition created_at (orderID : string) (t : time.Time) : OrderStatus :=
  updated_order NewStatusManager orderID "OrderCreated" ∅ t t.

(** Eleven orders, updated at times 1 to 11, in a store that [range]
    visits from the oldest to the newest. *)
Definition eleven : list (string * OrderStatus) :=
  [ ("o01", created_at "o01" 1); ("o02", created_at "o02" 2);
    ("o03", created_at "o03" 3); ("o04", created_at "o04" 4);
    ("o05", created_at "o05" 5); ("o06", created_at "o06" 6);
    ("o07", created_at "o07" 7); ("o08", created_at "o08" 8);
    ("o09", created_at "o09" 9); ("o10", created_at "o10" 10);
    ("o11", created_at "o11" 11) ]%string.

Definition eleven_store : StatusManager :=
  {| orders := list_to_map eleven; clients := ∅ |}.

Definition eleven_range : list OrderStatus := eleven.*2.

(** The creation events that build that store. *)
Definition eleven_events : list Event :=
  (λ p, {| ev_orderID := p.1; ev_eventType := "OrderCreated"; ev_data := ∅;
           ev_now1 := LastUpdated p.2; ev_now2 := LastUpdated p.2 |})
    <$> eleven.

(** The creation event of order "X" at time 5. *)
Definition creation_of_X : Event :=
  {| ev_orderID := "X"; ev_eventType := "OrderCreated"; ev_data := ∅;
     ev_now1 := 5; ev_now2 := 5 |}.

(** Scenario A: an order "X" goes through creation, inventory
    confirmation, payment and shipping. *)
Definition scenario_A_events : list Event :=
  [ {| ev_orderID := "X"; ev_eventType := "OrderCreated";
       ev_data := <["product_id" := JString "P1"]> (<["quantity" := JNumber 2]> ∅);
       ev_now1 := 1; ev_now2 := 2 |};
    {| ev_orderID := "X"; ev_eventType := "InventoryConfirmed";
       ev_data := ∅; ev_now1 := 3; ev_now2 := 4 |};
    {| ev_orderID := "X"; ev_eventType := "PaymentCompleted";
       ev_data := amount_payload 59.98; ev_now1 := 5; ev_now2 := 6 |};
    {| ev_orderID := "X"; ev_eventType := "Shipped";
       ev_data := <["tracking_number" := JString "TRKABC123"]> ∅;
       ev_now1 := 7; ev_now2 := 8 |} ].

Definition scenario_A : StatusManager * Net :=
  apply_events (AddClient NewStatusManager net0 "X" 1%nat) scenario_A_events.

(** ** The rest of the service *)

(** *** Operations on the manager, and the states they reach *)

(** What happens to a [StatusManager] in the running service: a decoded
    message is consumed ([consumeEvents]), a subscriber connects
    ([websocketHandler] calling [AddClient]), an order is deleted
    ([deleteOrder], and each step of [bulkDeleteOrders]), or the transport
    of a connection goes away (the peer leaves, or the handler's deferred
    [conn.Close()] runs). *)
Inductive Op : Type :=
| Consume (eventData : gmap string JSON) (now1 now2 : time.Time)
| Subscribe (orderID : string) (conn : Conn)
| Delete (orderID : string)
| TransportFails (conn : Conn).

Definition step (st : StatusManager * Net) (op : Op) : StatusManager * Net :=
  match op with
  | Consume eventData now1 now2 => consumeEvent st.1 st.2 eventData now1 now2
  | Subscribe orderID conn => AddClient st.1 st.2 orderID conn
  | Delete orderID => ((DeleteOrder st.1 orderID).1, st.2)
  | TransportFails conn => (st.1, Close st.2 conn)
  end.

Definition run (st : StatusManager * Net) (ops : list Op) : StatusManager * Net :=
  fold_left step ops st.

(** The state the service starts in. *)
Definition initial : StatusManager * Net := (NewStatusManager, net0).

(** The seven statuses the switch assigns. *)
Definition statuses : list string :=
  ["created"; "inventory_confirmed"; "inventory_rejected";
   "payment_completed"; "payment_failed"; "notification_sent";
   "shipped"]%string.

(** *** The handlers [getOrderStatus] and [getOrderEvents] *)

Inductive StatusResponse : Type :=
| StatusNotFound (error : string)
| StatusOK (order : OrderStatus).

Definition getOrderStatus (sm : StatusManager) (orderID : string)
  : StatusResponse :=
  match GetOrderStatus sm orderID with
  | None => StatusNotFound "Order not found"
  | Some order => StatusOK order
  end.

Inductive EventsResponse : Type :=
| EventsNotFound (error : string)
| EventsOK (order_id : string) (events : list EventRecord) (count : nat).

Definition getOrderEvents (sm : StatusManager) (orderID : string)
  : EventsResponse :=
  match GetOrderStatus sm orderID with
  | None => EventsNotFound "Order not found"
  | Some order => EventsOK orderID (Events order) (length (Events order))
  end.

(** *** [bulkDeleteOrders] *)

Record BulkDeleteResponse : Type := {
  deleted : nat;
  not_found : nat;
  total_requested : nat
}.

(** One iteration of the loop over [request.OrderIDs]. *)
Definition bulk_step (acc : StatusManager * nat * nat) (orderID : string)
  : StatusManager * nat * nat :=
  let '(sm, deleted, notFound) := acc in
  match DeleteOrder sm orderID with
  | (sm', true) => (sm', S deleted, notFound)
  | (sm', false) => (sm', deleted, S notFound)
  end.

(** The handler once [ShouldBindJSON] has bound the list of identifiers. *)
Definition bulkDeleteOrders (sm : StatusManager) (OrderIDs : list string)
  : StatusManager * BulkDeleteResponse :=
  let '(sm', deleted, notFound) := fold_left bulk_step OrderIDs (sm, 0%nat, 0%nat) in
  (sm', {| deleted := deleted; not_found := notFound;
           total_requested := length OrderIDs |}).

(** *** The live subscribers *)

(** The connections of a list whose transport is up. *)
Definition live (net : Net) (cs : list Conn) : list Conn :=
  List.filter (λ conn, negb (bool_decide (conn ∈ gone net))) cs.

(** The registered connections of an order. *)
Definition subscribers (sm : StatusManager) (orderID : string) : list Conn :=
  default [] (clients sm !! orderID).

(** The state of an order right after each event of a sequence that is
    addressed to it, the sequence being applied from [st]. *)
Fixpoint snapshots (st : StatusManager * Net) (orderID : string)
    (evs : list Event) : list OrderStatus :=
  match evs with
  | [] => []
  | e :: evs' =>
      (if String.eqb (ev_orderID e) orderID
       then [updated_order st.1 (ev_orderID e) (ev_eventType e) (ev_data e)
               (ev_now1 e) (ev_now2 e)]
       else [])
      ++ snapshots (apply_event st e) orderID evs'
  end.

(** The payload of a record names the order and the kind of the record. *)
Definition carries_identity (orderID : string) (r : EventRecord) : Prop :=
  Data r !! "order_id" = Some (JString orderID)
  ∧ Data r !! "event_type" = Some (JString (EventType r)).

(** What every stored order looks like in a running service. *)
Definition well_formed (sm : StatusManager) : Prop :=
  ∀ orderID order,
    orders sm !! orderID = Some order →
    OrderID order = orderID
    ∧ Events order ≠ []
    ∧ Status order ∈ statuses
    ∧ Forall (carries_identity orderID) (Events order).

(** The tracking number and the amount an event makes the switch store, if
    any. *)
Definition tracking_of (e : Event) : option string :=
  if String.eqb (ev_eventType e) "Shipped"
  then as_string (ev_data e !! "tracking_number") else None.

Definition amount_of (e : Event) : option float :=
  if String.eqb (ev_eventType e) "PaymentCompleted"
  then as_float64 (ev_data e !! "amount") else None.

(** A shipping event for "X1" that carries a tracking number. *)
Definition shipping_of_X1 : Event :=
  {| ev_orderID := "X1"; ev_eventType := "Shipped";
     ev_data := <["tracking_number" := JString "TRK1"]> ∅;
     ev_now1 := time.Date 2024 1 16; ev_now2 := time.Date 2024 1 16 |}.

(** A later notification for "X1". *)
Definition notification_of_X1 : Event :=
  {| ev_orderID := "X1"; ev_eventType := "NotificationSent";
     ev_data := ∅;
     ev_now1 := time.Date 2024 1 17; ev_now2 := time.Date 2024 1 17 |}.

(** The values carried, in order, by the events of a sequence that are
    addressed to one order. *)
Definition carried {A} (orderID : string) (value : Event → option A)
    (evs : list Event) : list A :=
  omap value (addressed_to orderID evs).

(** *** [GetOrdersByDateRange] and the daily report *)

Definition GetOrdersByDateRange (vs : list OrderStatus) (from to : time.Time)
  : list OrderStatus :=
  let result :=
    List.filter (λ order, time.After (LastUpdated order) from
                          && time.Before (LastUpdated order) to) vs in
  sort_Slice newer result.

Record DailyReport : Type := {
  report_date : string;
  report_total_orders : nat;
  report_orders_by_status : gmap string nat;
  report_orders_by_product : gmap string nat;
  report_total_revenue : float;
  report_orders : list OrderStatus
}.

Inductive DailyResponse : Type :=
| DailyBadRequest (error : string)
| DailyOK (report : DailyReport).

(** The loop of [getDailyReport] over the orders of the day. *)
Definition daily_step (acc : gmap string nat * gmap string nat * float)
    (order : OrderStatus) : gmap string nat * gmap string nat * float :=
  let '(statusCounts, productCounts, totalRevenue) := acc in
  (incr (Status order) statusCounts,
   if negb (String.eqb (ProductID order) "")
   then incr (ProductID order) productCounts else productCounts,
   if revenue_bearing order
   then (totalRevenue + PaymentAmount order)%float else totalRevenue).

Definition getDailyReport (vs : list OrderStatus) (dateStr : string)
  : DailyResponse :=
  match time.Parse_date dateStr with
  | None => DailyBadRequest "Invalid date format. Use YYYY-MM-DD"
  | Some date =>
      let from := date in
      let to := time.Add date
                  (23 * time.Hour + 59 * time.Minute + 59 * time.Second) in
      let orders := GetOrdersByDateRange vs from to in
      let '(statusCounts, productCounts, totalRevenue) :=
        fold_left daily_step orders (∅, ∅, 0%float) in
      DailyOK {| report_date := dateStr;
                 report_total_orders := length orders;
                 report_orders_by_status := statusCounts;
                 report_orders_by_product := productCounts;
                 report_total_revenue := totalRevenue;
                 report_orders := orders |}
  end.

(** *** The listing handlers *)

(** What a listing handler answers: the orders and their count (the third
    field of each answer echoes its input). *)
Definition getOrdersByStatus (vs : list OrderStatus) (status : string)
  : list OrderStatus * nat * string :=
  let filter := {| OrderFilter.Status := status; OrderFilter.ProductID := "";
                   OrderFilter.DateFrom := ""; OrderFilter.DateTo := "";
                   OrderFilter.Limit := 0; OrderFilter.Offset := 0 |} in
  let orders := GetFilteredOrders vs filter in
  (orders, length orders, status).

Definition getOrdersByProduct (vs : list OrderStatus) (productID : string)
  : list OrderStatus * nat * string :=
  let filter := {| OrderFilter.Status := ""; OrderFilter.ProductID := productID;
                   OrderFilter.DateFrom := ""; OrderFilter.DateTo := "";
                   OrderFilter.Limit := 0; OrderFilter.Offset := 0 |} in
  let orders := GetFilteredOrders vs filter in
  (orders, length orders, productID).

(** [strconv.Atoi]: an optional sign, then one or more decimal digits and
    nothing else; a value outside the range of [int] is an error. *)
Fixpoint digits_value (acc : Z) (s : string) : option Z :=
  match s with
  | EmptyString => Some acc
  | String c s' =>
      if time.isDigit c then digits_value (10 * acc + time.digit c) s'
      else None
  end.

Definition Atoi (s : string) : option Z :=
  let '(neg, body) :=
    match s with
    | String c s' =>
        if Ascii.eqb c "-"%char then (true, s')
        else if Ascii.eqb c "+"%char then (false, s')
        else (false, s)
    | EmptyString => (false, s)
    end in
  match body with
  | EmptyString => None
  | _ =>
      match digits_value 0 body with
      | Some n =>
          let v := if neg then - n else n in
          if (- 2 ^ 63 <=? v) && (v <? 2 ^ 63) then Some v else None
      | None => None
      end
  end.

(** The query parameter as the handler reads it into the filter: the zero
    value stays when the parameter is absent (empty) or is not a number. *)
Definition int_param (s : string) : Z :=
  if String.eqb s "" then 0
  else match Atoi s with Some n => n | None => 0 end.

(** [getFilteredOrders], given the values of the six query parameters
    ([c.Query] gives the empty string for an absent one). *)
Definition getFilteredOrders (vs : list OrderStatus)
    (status product_id date_from date_to limit offset : string)
  : list OrderStatus * nat * OrderFilter.t :=
  let filter := {| OrderFilter.Status := status;
                   OrderFilter.ProductID := product_id;
                   OrderFilter.DateFrom := date_from;
                   OrderFilter.DateTo := date_to;
                   OrderFilter.Limit := int_param limit;
                   OrderFilter.Offset := int_param offset |} in
  let orders := GetFilteredOrders vs filter in
  (orders, length orders, filter).

(** The same filter with another window of pagination. *)
Definition with_page (filter : OrderFilter.t) (offset limit : Z)
  : OrderFilter.t :=
  {| OrderFilter.Status := OrderFilter.Status filter;
     OrderFilter.ProductID := OrderFilter.ProductID filter;
     OrderFilter.DateFrom := OrderFilter.DateFrom filter;
     OrderFilter.DateTo := OrderFilter.DateTo filter;
     OrderFilter.Limit := limit;
     OrderFilter.Offset := offset |}.

(** How often a key occurs among the orders, as a counter of a breakdown
    holds it: no entry for a key that never occurs. *)
Definition tally (n : nat) : option nat :=
  if decide (n = 0%nat) then None else Some n.

(** The filter that asks for one day and nothing else. *)
Definition day_filter (dateStr : string) : OrderFilter.t :=
  with_DateFrom (with_DateTo no_filter dateStr) dateStr.

(** *** The processing times of [GetStatistics] *)

(** [time.Duration] is an [int64]: sums wrap around. *)
Definition wrap64 (z : Z) : Z := (z + 2 ^ 63) mod 2 ^ 64 - 2 ^ 63.

(** [t.Sub(u)] on two readings of the process clock: the difference, held
    at the least or the greatest [Duration] when it does not fit. *)
Definition Time_Sub (t u : time.Time) : time.Duration :=
  if (- 2 ^ 63 <=? t - u) && (t - u <? 2 ^ 63) then t - u
  else if t <? u then - 2 ^ 63 else 2 ^ 63 - 1.

(** The body of the loop over [order.Events[1:]]: [ie] is the index and the
    event; the stage "stage_(i+1)" is kept as the number [i+1]. *)
Definition stage_step (createdTime : time.Time)
    (processingTimes : gmap nat (list time.Duration)) (ie : nat * EventRecord)
  : gmap nat (list time.Duration) :=
  let stage := S ie.1 in
  let duration := Time_Sub (Timestamp ie.2) createdTime in
  <[stage := default [] (processingTimes !! stage) ++ [duration]]>
    processingTimes.

(** The body of the second loop over [sm.orders]. *)
Definition processing_step (processingTimes : gmap nat (list time.Duration))
    (order : OrderStatus) : gmap nat (list time.Duration) :=
  if (2 <=? length (Events order))%nat then
    match Events order with
    | first :: rest =>
        fold_left (stage_step (Timestamp first))
          (zip (seq 0 (length rest)) rest) processingTimes
    | [] => processingTimes
    end
  else processingTimes.

(** [total / time.Duration(len(durations))]: the wrapped sum, divided with
    truncation toward zero. *)
Definition average (durations : list time.Duration) : time.Duration :=
  let total := fold_left (λ total d, wrap64 (total + d)) durations 0 in
  Z.quot total (Z.of_nat (length durations)).

(** The [ProcessingTime] table before its values are printed
    ([avg.String()]): for each stage the average duration. *)
Definition ProcessingTime (vs : list OrderStatus) : gmap nat time.Duration :=
  let processingTimes := fold_left processing_step vs ∅ in
  omap (λ durations,
          if (0 <? length durations)%nat then Some (average durations)
          else None)
       processingTimes.

(** The time an order took from its first event to its event number [k]
    (counted from 0), for [k] at least 1. *)
Definition stage_duration (k : nat) (order : OrderStatus)
  : option time.Duration :=
  match Events order, k with
  | first :: rest, S j =>
      (λ event, Time_Sub (Timestamp event) (Timestamp first)) <$> rest !! j
  | _, _ => None
  end.

Definition Zsum (zs : list Z) : Z := foldr Z.add 0 zs.

(** What holds of the registry and the wire after the operations [ops]:
    every registration and every written message goes back to a
    subscription. *)
Definition accounted (st : StatusManager * Net) (ops : list Op) : Prop :=
  (∀ orderID conn,
     conn ∈ subscribers st.1 orderID → Subscribe orderID conn ∈ ops)
  ∧ (∀ conn message,
       (conn, message) ∈ wire st.2 → Subscribe (OrderID message) conn ∈ ops).

(** * Properties *)

(** ** The switch *)

Lemma switch_Events k d o : Events (switch_eventType k d o) = Events o.
Proof.
  unfold switch_eventType.
  repeat (destruct (String.eqb k _); [repeat case_match; reflexivity|]).
  reflexivity.
Qed.

Lemma switch_Status_table k d o s :
  table_status k = Some s → Status (switch_eventType k d o) = s.
Proof.
  unfold table_status, switch_eventType, transition_table. simpl.
  repeat (destruct (String.eqb k _); simpl;
          [intros [= <-]; repeat case_match; reflexivity|]).
  discriminate.
Qed.

Lemma switch_Status_unknown k d o :
  table_status k = None → Status (switch_eventType k d o) = Status o.
Proof.
  unfold table_status, switch_eventType, transition_table. simpl.
  repeat (destruct (String.eqb k _); simpl; [discriminate|]).
  reflexivity.
Qed.

(** ** Broadcasting leaves the orders alone and only appends to the wire *)

Lemma notifyClients_orders sm net oid o :
  orders (notifyClients sm net oid o).1 = orders sm.
Proof.
  unfold notifyClients. destruct (clients sm !! oid); [|reflexivity].
  destruct (fold_left _ _ _). reflexivity.
Qed.

Lemma UpdateOrderStatus_orders sm net oid k d t1 t2 :
  orders (UpdateOrderStatus sm net oid k d t1 t2).1
  = <[oid := updated_order sm oid k d t1 t2]> (orders sm).
Proof. unfold UpdateOrderStatus. by rewrite notifyClients_orders. Qed.

Lemma updated_order_Events sm oid k d t1 t2 :
  Events (updated_order sm oid k d t1 t2)
  = history sm oid ++ [{| EventType := k; Data := d; Timestamp := t1 |}].
Proof.
  unfold updated_order, history. rewrite switch_Events. simpl.
  by destruct (orders sm !! oid).
Qed.

Lemma history_UpdateOrderStatus sm net oid k d t1 t2 oid' :
  history (UpdateOrderStatus sm net oid k d t1 t2).1 oid'
  = if String.eqb oid oid'
    then history sm oid' ++ [{| EventType := k; Data := d; Timestamp := t1 |}]
    else history sm oid'.
Proof.
  unfold history at 1. rewrite UpdateOrderStatus_orders.
  destruct (String.eqb_spec oid oid') as [->|Hne].
  - by rewrite lookup_insert_eq, updated_order_Events.
  - by rewrite lookup_insert_ne.
Qed.

(** C2. Applying an event appends exactly one record to the history of the
    order it addresses, whatever its kind (in the transition table or not),
    and leaves every earlier record, and every other order's history, as it
    was: after any sequence of events the history of an order is the
    history before followed by one record per event addressed to it, in
    order of application, so its length has grown by the number of those
    events. *)
Theorem C2_events_append_only (st : StatusManager * Net) (evs : list Event)
    (orderID : string) :
  history (apply_events st evs).1 orderID
  = history st.1 orderID ++ (record_of <$> addressed_to orderID evs)
  ∧ length (history (apply_events st evs).1 orderID)
    = (length (history st.1 orderID) + length (addressed_to orderID evs))%nat.
Proof.
  assert (Heq : history (apply_events st evs).1 orderID
    = history st.1 orderID ++ (record_of <$> addressed_to orderID evs)).
  { revert st. induction evs as [|e evs IH]; intros st.
    - simpl. by rewrite app_nil_r.
    - simpl. rewrite IH. unfold apply_event.
      rewrite history_UpdateOrderStatus.
      destruct (String.eqb (ev_orderID e) orderID); simpl; [|done].
      by rewrite <- app_assoc. }
  split; [exact Heq|].
  rewrite Heq, length_app, length_fmap. reflexivity.
Qed.

(** ** Ingestion *)

(** A decoded message is applied exactly when its [order_id] and
    [event_type] are strings; otherwise it is dropped and nothing changes. *)
Lemma consumeEvent_applies sm net eventData now1 now2 orderID eventType :
  eventData !! "order_id" = Some (JString orderID) →
  eventData !! "event_type" = Some (JString eventType) →
  consumeEvent sm net eventData now1 now2
  = UpdateOrderStatus sm net orderID eventType eventData now1 now2.
Proof. intros H1 H2. unfold consumeEvent. by rewrite H1, H2. Qed.

Lemma consumeEvent_drops sm net eventData now1 now2 :
  as_string (eventData !! "order_id") = None
  ∨ as_string (eventData !! "event_type") = None →
  consumeEvent sm net eventData now1 now2 = (sm, net).
Proof.
  intros [H|H]; unfold consumeEvent; rewrite H; [done|].
  by destruct (as_string (eventData !! "order_id")).
Qed.

(** ** The status after a sequence of events *)

Lemma apply_event_lookup_other st e oid :
  ev_orderID e ≠ oid →
  orders (apply_event st e).1 !! oid = orders st.1 !! oid.
Proof.
  intros Hne. unfold apply_event.
  by rewrite UpdateOrderStatus_orders, lookup_insert_ne.
Qed.

Lemma apply_events_lookup_other st evs oid :
  Forall (λ e, ev_orderID e ≠ oid) evs →
  orders (apply_events st evs).1 !! oid = orders st.1 !! oid.
Proof.
  intros Hall. revert st.
  induction Hall as [|e evs Hne _ IH]; intros st; [done|].
  simpl. by rewrite IH, apply_event_lookup_other.
Qed.

Lemma apply_event_status st e s :
  table_status (ev_eventType e) = Some s →
  Status <$> orders (apply_event st e).1 !! ev_orderID e = Some s.
Proof.
  intros Hs. unfold apply_event.
  rewrite UpdateOrderStatus_orders, lookup_insert_eq. simpl.
  unfold updated_order. by rewrite (switch_Status_table _ _ _ s).
Qed.

(** C1. Let [e] be the last event applied to its order in a sequence of
    events (the events after it, [post], are addressed to other orders; the
    events before it, [pre], are arbitrary, as is the state the sequence
    starts from). If the kind of [e] is in the transition table, the status
    of the order after the whole sequence is the status the table gives for
    that kind: nothing that earlier events produced has a part in it. *)
Theorem C1_status_is_effect_of_last_kind (st : StatusManager * Net)
    (pre post : list Event) (e : Event) (s : string) :
  table_status (ev_eventType e) = Some s →
  Forall (λ e', ev_orderID e' ≠ ev_orderID e) post →
  Status <$> orders (apply_events st (pre ++ e :: post)).1 !! ev_orderID e
  = Some s.
Proof.
  intros Hs Hpost. unfold apply_events.
  rewrite fold_left_app. simpl.
  fold (apply_events st pre).
  fold (apply_events (apply_event (apply_events st pre) e) post).
  rewrite apply_events_lookup_other by exact Hpost.
  by apply apply_event_status.
Qed.

(** ** The scenarios of the specification, run on the model *)

Example scenario_A_final_state :
  Status <$> GetOrderStatus scenario_A.1 "X" = Some "shipped"%string
  ∧ ProductID <$> GetOrderStatus scenario_A.1 "X" = Some "P1"%string
  ∧ Quantity <$> GetOrderStatus scenario_A.1 "X" = Some 2
  ∧ PaymentAmount <$> GetOrderStatus scenario_A.1 "X" = Some 59.98%float
  ∧ TrackingNumber <$> GetOrderStatus scenario_A.1 "X" = Some "TRKABC123"%string
  ∧ length (history scenario_A.1 "X") = 4%nat
  ∧ length (received scenario_A.2 1%nat) = 4%nat.
Proof. repeat split; vm_compute; reflexivity. Qed.

(** Scenario B: a payment for an order never seen before is applied as it
    comes. *)
Example scenario_B_no_causal_order :
  Status <$> GetOrderStatus
    (UpdateOrderStatus NewStatusManager net0 "Y" "PaymentCompleted"
       (amount_payload 10) 1 2).1 "Y" = Some "payment_completed"%string
  ∧ ProductID <$> GetOrderStatus
      (UpdateOrderStatus NewStatusManager net0 "Y" "PaymentCompleted"
         (amount_payload 10) 1 2).1 "Y" = Some ""%string
  ∧ length (history
      (UpdateOrderStatus NewStatusManager net0 "Y" "PaymentCompleted"
         (amount_payload 10) 1 2).1 "Y") = 1%nat.
Proof. repeat split; vm_compute; reflexivity. Qed.

(** Scenario C: after the deletion of "X" the lookup finds nothing and the
    registry has no subscriber left for it. *)
Example scenario_C_delete :
  (DeleteOrder scenario_A.1 "X").2 = true
  ∧ GetOrderStatus (DeleteOrder scenario_A.1 "X").1 "X" = None
  ∧ clients (DeleteOrder scenario_A.1 "X").1 !! "X" = None.
Proof. repeat split; vm_compute; reflexivity. Qed.

(** ** The payment amount *)

(** C4, as the code has it. A payment-completed event whose payload carries
    a number under the field [amount] sets the order's status to
    [payment_completed] and its payment amount to that number. *)
Theorem C4_payment_amount_from_amount_field (sm : StatusManager) (net : Net)
    (orderID : string) (data : gmap string JSON) (now1 now2 : time.Time)
    (amount : float) :
  data !! "amount" = Some (JNumber amount) →
  ∃ order,
    orders (UpdateOrderStatus sm net orderID "PaymentCompleted" data now1 now2).1
      !! orderID = Some order
    ∧ Status order = "payment_completed"
    ∧ PaymentAmount order = amount.
Proof.
  intros Hamount. rewrite UpdateOrderStatus_orders, lookup_insert_eq.
  eexists; split; [reflexivity|].
  unfold updated_order, switch_eventType. simpl. rewrite Hamount. simpl.
  split; reflexivity.
Qed.

Lemma C4_payment_amount_from_amount_field_witness :
  payment_with_amount !! "amount" = Some (JNumber 59.98)
  ∧ ∃ order,
      orders (UpdateOrderStatus NewStatusManager net0 "Y" "PaymentCompleted"
                payment_with_amount 5 6).1 !! "Y" = Some order
      ∧ Status order = "payment_completed"
      ∧ PaymentAmount order = 59.98%float.
Proof.
  split; [reflexivity|].
  apply (C4_payment_amount_from_amount_field NewStatusManager net0 "Y"
           payment_with_amount 5 6 59.98%float).
  reflexivity.
Defined.

(** C4, as stated, fails: a payment-completed event that carries 59.98 under
    [payment_amount] sets the status, and leaves the payment amount of the
    (new) order at zero. *)
Lemma C4_payment_amount_field_is_not_read :
  payment_with_payment_amount !! "payment_amount" = Some (JNumber 59.98)
  ∧ ∃ order,
      orders (UpdateOrderStatus NewStatusManager net0 "Y" "PaymentCompleted"
                payment_with_payment_amount 5 6).1 !! "Y" = Some order
      ∧ Status order = "payment_completed"
      ∧ PaymentAmount order = 0%float
      ∧ PaymentAmount order ≠ 59.98%float.
Proof.
  split; [reflexivity|].
  eexists. split; [vm_compute; reflexivity|].
  split; [reflexivity|]. split; [reflexivity|].
  simpl. intros H. apply (f_equal (PrimFloat.ltb 1)) in H.
  vm_compute in H. discriminate.
Qed.

(** ** Statistics *)

Lemma filter_bool_Prop {A} (f : A → bool) (P : A → Prop)
    `{!∀ x, Decision (P x)} (l : list A) :
  (∀ x, f x = true ↔ P x) → List.filter f l = filter P l.
Proof.
  intros Hf. induction l as [|x l IH]; [done|]. simpl.
  destruct (f x) eqn:Hx.
  - rewrite filter_cons_True by (by apply Hf). by rewrite IH.
  - rewrite filter_cons_False; [done|].
    intros HP. apply Hf in HP. congruence.
Qed.

Lemma revenue_bearing_recognized order :
  revenue_bearing order = true ↔ recognized order.
Proof.
  unfold revenue_bearing, recognized, payment_recognized.
  rewrite orb_true_iff, !String.eqb_eq, !elem_of_cons, elem_of_nil. tauto.
Qed.

Lemma stats_loop_fold vs st :
  l_TotalOrders (fold_left stats_step vs st)
  = (l_TotalOrders st + length vs)%nat
  ∧ l_completedOrders (fold_left stats_step vs st)
    = (l_completedOrders st + length (List.filter revenue_bearing vs))%nat
  ∧ l_totalRevenue (fold_left stats_step vs st)
    = fold_left PrimFloat.add
        (PaymentAmount <$> List.filter revenue_bearing vs) (l_totalRevenue st)
  ∧ l_recentOrders (fold_left stats_step vs st)
    = l_recentOrders st ++ take (10 - length (l_recentOrders st)) vs.
Proof.
  revert st. induction vs as [|o vs IH]; intros st.
  - simpl. rewrite take_nil, app_nil_r. repeat split; lia.
  - simpl fold_left. destruct (IH (stats_step st o)) as (H1 & H2 & H3 & H4).
    rewrite H1, H2, H3, H4. clear. simpl.
    destruct (revenue_bearing o); simpl;
      (split; [lia|split; [lia|split; [reflexivity|]]]).
    all: destruct (Nat.ltb_spec (length (l_recentOrders st)) 10) as [Hlt|Hge].
    all: try (rewrite length_app; simpl;
              replace (10 - length (l_recentOrders st))%nat
                with (S (10 - (length (l_recentOrders st) + 1))) by lia;
              simpl; by rewrite <- app_assoc).
    all: replace (10 - length (l_recentOrders st))%nat with 0%nat by lia;
         reflexivity.
Qed.

Lemma ranges_length sm vs : ranges sm vs → length vs = size (orders sm).
Proof.
  unfold ranges. intros ->. by rewrite length_fmap, length_map_to_list.
Qed.

Lemma GetStatistics_fields vs :
  TotalOrders (GetStatistics vs) = length vs
  ∧ TotalRevenue (GetStatistics vs)
    = sum_float64 (PaymentAmount <$> filter recognized vs)
  ∧ AverageOrderValue (GetStatistics vs)
    = (if decide (length vs = 0%nat) then 0%float
       else (TotalRevenue (GetStatistics vs)
             / float64_of_nat (length (filter recognized vs)))%float)
  ∧ CompletionRate (GetStatistics vs)
    = (if decide (length vs = 0%nat) then 0%float
       else (float64_of_nat (length (filter recognized vs))
             / float64_of_nat (length vs) * 100)%float).
Proof.
  unfold GetStatistics, sum_float64. simpl.
  destruct (stats_loop_fold vs stats_init) as (H1 & H2 & H3 & _).
  rewrite H1, H2, H3. simpl.
  rewrite (filter_bool_Prop _ recognized) by apply revenue_bearing_recognized.
  repeat split.
  - destruct (decide (length vs = 0%nat)) as [->|Hne]; [reflexivity|].
    destruct (Nat.ltb_spec 0 (length vs)); [reflexivity|lia].
  - destruct (decide (length vs = 0%nat)) as [->|Hne]; [reflexivity|].
    destruct (Nat.ltb_spec 0 (length vs)); [reflexivity|lia].
Qed.

Lemma Permutation_length_3_inv {A} (a b c : A) (l : list A) :
  l ≡ₚ [a; b; c] →
  l = [a; b; c] ∨ l = [a; c; b] ∨ l = [b; a; c]
  ∨ l = [b; c; a] ∨ l = [c; a; b] ∨ l = [c; b; a].
Proof.
  intros Hp. symmetry in Hp.
  apply Permutation_cons_inv_l in Hp as (k1 & k2 & -> & Hp).
  apply Permutation_length_2_inv in Hp.
  destruct k1 as [|x [|y [|z k1]]]; simpl in *;
    destruct Hp as [Hp|Hp]; simplify_eq; tauto.
Qed.

Lemma three_orders_statistics vs a b c :
  vs ≡ₚ [a; b; c] →
  Status a = "payment_completed"%string → PaymentAmount a = 10%float →
  Status b = "payment_completed"%string → PaymentAmount b = 20%float →
  Status c = "inventory_rejected"%string →
  TotalOrders (GetStatistics vs) = 3%nat
  ∧ TotalRevenue (GetStatistics vs) = 30%float
  ∧ AverageOrderValue (GetStatistics vs) = 15%float
  ∧ CompletionRate (GetStatistics vs) = 66.666666666666657%float.
Proof.
  destruct a as [? ? ? sa ? ? ? pa], b as [? ? ? sb ? ? ? pb],
    c as [? ? ? sc ? ? ? pc].
  simpl. intros Hp -> -> -> -> ->.
  apply Permutation_length_3_inv in Hp.
  destruct Hp as [->|[->|[->|[->|[->| ->]]]]];
    (split; [reflexivity|]); repeat split; vm_compute; reflexivity.
Qed.

(** C3. On every snapshot of the store, in whatever order [range] visits
    it: the total is the number of orders; the revenue is the [float64] sum,
    in visiting order, of the payment amounts of exactly the orders whose
    status is [payment_completed] or [shipped]; on a store that is not empty
    the average order value is that revenue divided by the number of those
    orders, and the completion rate is that number divided by the total,
    times 100 (on an empty store, where there is no quotient, both are 0).
    On a store that holds two [payment_completed] orders of 10.00 and 20.00
    and one [inventory_rejected] order this gives 3 orders, a revenue of
    30.00, an average of 15.00 and a completion rate of
    66.666666666666657, which is shown as 66.7. *)
Theorem C3_statistics_formulas (sm : StatusManager) (vs : list OrderStatus) :
  ranges sm vs →
  (TotalOrders (GetStatistics vs) = size (orders sm)
   ∧ TotalRevenue (GetStatistics vs)
     = sum_float64 (PaymentAmount <$> filter recognized vs)
   ∧ AverageOrderValue (GetStatistics vs)
     = (if decide (size (orders sm) = 0%nat) then 0%float
        else (TotalRevenue (GetStatistics vs)
              / float64_of_nat (length (filter recognized vs)))%float)
   ∧ CompletionRate (GetStatistics vs)
     = (if decide (size (orders sm) = 0%nat) then 0%float
        else (float64_of_nat (length (filter recognized vs))
              / float64_of_nat (size (orders sm)) * 100)%float))
  ∧ (∀ a b c,
       vs ≡ₚ [a; b; c] →
       Status a = "payment_completed"%string → PaymentAmount a = 10%float →
       Status b = "payment_completed"%string → PaymentAmount b = 20%float →
       Status c = "inventory_rejected"%string →
       TotalOrders (GetStatistics vs) = 3%nat
       ∧ TotalRevenue (GetStatistics vs) = 30%float
       ∧ AverageOrderValue (GetStatistics vs) = 15%float
       ∧ CompletionRate (GetStatistics vs) = 66.666666666666657%float
       ∧ shown_as_66_7 (CompletionRate (GetStatistics vs)) = true).
Proof.
  intros Hvs. split.
  - rewrite <- (ranges_length sm vs Hvs). apply GetStatistics_fields.
  - intros a b c Hp Ha Hpa Hb Hpb Hc.
    destruct (three_orders_statistics vs a b c Hp Ha Hpa Hb Hpb Hc)
      as (H1 & H2 & H3 & H4).
    rewrite H1, H2, H3, H4. repeat split; reflexivity.
Qed.

Lemma C3_statistics_formulas_witness :
  ranges scenario_D scenario_D_range
  ∧ scenario_D_range ≡ₚ [paid "A" 10 100 101; paid "B" 20 200 201;
                          rejected "C" 300 301]
  ∧ TotalOrders (GetStatistics scenario_D_range) = 3%nat
  ∧ TotalRevenue (GetStatistics scenario_D_range) = 30%float
  ∧ AverageOrderValue (GetStatistics scenario_D_range) = 15%float
  ∧ CompletionRate (GetStatistics scenario_D_range) = 66.666666666666657%float
  ∧ shown_as_66_7 (CompletionRate (GetStatistics scenario_D_range)) = true.
Proof.
  assert (H : ranges scenario_D scenario_D_range) by (unfold ranges; reflexivity).
  assert (Hp : scenario_D_range
               ≡ₚ [paid "A" 10 100 101; paid "B" 20 200 201;
                   rejected "C" 300 301]).
  { change scenario_D_range
      with [rejected "C" 300 301; paid "A" 10 100 101; paid "B" 20 200 201].
    apply (Permutation_cons_app [_; _] []). reflexivity. }
  split; [exact H|]. split; [exact Hp|].
  apply (proj2 (C3_statistics_formulas scenario_D scenario_D_range H)
           (paid "A" 10 100 101) (paid "B" 20 200 201) (rejected "C" 300 301)
           Hp); reflexivity.
Defined.

(** C10. The division for the average order value is guarded by the total
    number of orders only. On an empty store it is skipped and the average
    stays 0. On a store with at least one order it is carried out with the
    number of orders whose status is [payment_completed] or [shipped] as
    the divisor, whatever that number is; when it is zero the revenue is
    zero as well and the quotient 0/0 is not a number. *)
Theorem C10_average_division_guard (sm : StatusManager) (vs : list OrderStatus) :
  ranges sm vs →
  (orders sm = ∅ → AverageOrderValue (GetStatistics vs) = 0%float)
  ∧ (orders sm ≠ ∅ →
     AverageOrderValue (GetStatistics vs)
     = (TotalRevenue (GetStatistics vs)
        / float64_of_nat (length (filter recognized vs)))%float
     ∧ (length (filter recognized vs) = 0%nat →
        AverageOrderValue (GetStatistics vs) = (0 / 0)%float
        ∧ PrimFloat.is_nan (AverageOrderValue (GetStatistics vs)) = true)).
Proof.
  intros Hvs.
  destruct (GetStatistics_fields vs) as (_ & Hrev & Havg & _).
  rewrite (ranges_length sm vs Hvs) in Havg.
  split.
  - intros Hempty. rewrite Havg, Hempty, map_size_empty. reflexivity.
  - intros Hne.
    assert (Hsize : size (orders sm) ≠ 0%nat).
    { intros H0. by apply map_size_empty_iff in H0. }
    destruct (decide (size (orders sm) = 0%nat)); [done|].
    split; [exact Havg|].
    intros Hzero. rewrite Havg, Hrev.
    apply length_zero_iff_nil in Hzero. rewrite Hzero.
    split; reflexivity.
Qed.

Lemma C10_average_division_guard_witness :
  ranges unpaid_store unpaid_range
  ∧ orders unpaid_store ≠ ∅
  ∧ length (filter recognized unpaid_range) = 0%nat
  ∧ PrimFloat.is_nan (AverageOrderValue (GetStatistics unpaid_range)) = true.
Proof.
  assert (H : ranges unpaid_store unpaid_range) by (unfold ranges; reflexivity).
  assert (Hne : orders unpaid_store ≠ ∅).
  { intros He. apply (f_equal (λ m, m !! "U")) in He.
    vm_compute in He. discriminate. }
  assert (Hz : length (filter recognized unpaid_range) = 0%nat)
    by (vm_compute; reflexivity).
  split; [exact H|]. split; [exact Hne|]. split; [exact Hz|].
  apply (C10_average_division_guard unpaid_store unpaid_range H).
  - exact Hne.
  - exact Hz.
Defined.

(** ** Sorting by recency *)

Lemma insert_sorted_Permutation x l : insert_sorted newer x l ≡ₚ x :: l.
Proof.
  induction l as [|y l IH]; [done|]. simpl.
  destruct (newer x y); [done|]. rewrite IH. apply Permutation_swap.
Qed.

Lemma insert_sorted_StronglySorted x l :
  StronglySorted not_older l → StronglySorted not_older (insert_sorted newer x l).
Proof.
  induction 1 as [|y l Hl IH Hy]; simpl.
  - repeat constructor.
  - unfold newer, time.After.
    destruct (Z.ltb_spec (LastUpdated y) (LastUpdated x)) as [Hlt|Hge].
    + constructor; [by constructor|].
      constructor; [unfold not_older; lia|].
      eapply Forall_impl; [exact Hy|]. unfold not_older. simpl. lia.
    + constructor; [exact IH|].
      rewrite insert_sorted_Permutation.
      constructor; [unfold not_older; lia | exact Hy].
Qed.

Lemma sort_Slice_fold acc l :
  StronglySorted not_older acc →
  fold_left (λ acc x, insert_sorted newer x acc) l acc ≡ₚ acc ++ l
  ∧ StronglySorted not_older
      (fold_left (λ acc x, insert_sorted newer x acc) l acc).
Proof.
  revert acc. induction l as [|x l IH]; intros acc Hacc; simpl.
  - by rewrite app_nil_r.
  - destruct (IH (insert_sorted newer x acc)) as [Hp Hs].
    { by apply insert_sorted_StronglySorted. }
    split; [|exact Hs].
    rewrite Hp, insert_sorted_Permutation. simpl. apply Permutation_middle.
Qed.

Lemma sort_Slice_Permutation l : sort_Slice newer l ≡ₚ l.
Proof. apply (sort_Slice_fold [] l). constructor. Qed.

Lemma sort_Slice_StronglySorted l : StronglySorted not_older (sort_Slice newer l).
Proof. apply (sort_Slice_fold [] l). constructor. Qed.

(** ** Filtering *)

Lemma paginate_page filter l :
  paginate filter l
  = page (OrderFilter.Offset filter) (OrderFilter.Limit filter) l.
Proof.
  unfold paginate, page.
  destruct (Z.ltb_spec 0 (OrderFilter.Offset filter)) as [Hoff|Hoff]; simpl.
  - destruct (Z.leb_spec (Z.of_nat (length l)) (OrderFilter.Offset filter))
      as [Hlen|Hlen].
    + rewrite drop_ge by lia. by destruct (0 <? _); rewrite ?take_nil.
    + destruct (Z.ltb_spec 0 (OrderFilter.Limit filter)) as [Hlim|Hlim];
        simpl; [|done].
      destruct (Z.ltb_spec (OrderFilter.Limit filter)
                  (Z.of_nat (length (drop (Z.to_nat (OrderFilter.Offset filter)) l))))
        as [Hlt|Hge]; [done|].
      rewrite take_ge by lia. done.
  - replace (Z.to_nat (OrderFilter.Offset filter)) with 0%nat by lia.
    rewrite drop_0.
    destruct (Z.ltb_spec 0 (OrderFilter.Limit filter)) as [Hlim|Hlim];
      simpl; [|done].
    destruct (Z.ltb_spec (OrderFilter.Limit filter) (Z.of_nat (length l)))
      as [Hlt|Hge]; [done|].
    rewrite take_ge by lia. done.
Qed.

Lemma Parse_date_midnight s day :
  time.Parse_date s = Some day → ∃ n, day = n * (24 * time.Hour).
Proof.
  unfold time.Parse_date, time.Date. intros H.
  repeat case_match; try discriminate.
  injection H as <-. eexists. rewrite <- Z.mul_assoc. reflexivity.
Qed.

Lemma filter_dateFrom_parse filter :
  filter_dateFrom filter = Parse_or_zero (OrderFilter.DateFrom filter).
Proof.
  unfold filter_dateFrom.
  destruct (String.eqb_spec (OrderFilter.DateFrom filter) "") as [->|]; done.
Qed.

Lemma in_window_checks filter t :
  negb (time.IsZero (filter_dateFrom filter))
    && time.Before t (filter_dateFrom filter) = false
  ∧ negb (time.IsZero (filter_dateTo filter))
      && time.After t (filter_dateTo filter) = false
  ↔ in_window filter t.
Proof.
  rewrite filter_dateFrom_parse.
  unfold in_window, filter_dateTo, Parse_or_zero,
    time.IsZero, time.Before, time.After, time.Add.
  assert (Hend : end_of_day = 86399000000000) by reflexivity.
  assert (Hday : 24 * time.Hour = 86400000000000) by reflexivity.
  change (23 * time.Hour + 59 * time.Minute + 59 * time.Second)
    with end_of_day.
  destruct (time.Parse_date (OrderFilter.DateFrom filter)) as [from|];
    destruct (time.Parse_date (OrderFilter.DateTo filter)) as [to|] eqn:Hto;
    destruct (String.eqb_spec (OrderFilter.DateTo filter) "") as [He|He];
    try (rewrite He in Hto; discriminate Hto);
    try (apply Parse_date_midnight in Hto as (n & ->); rewrite Hday);
    rewrite Hend, ?andb_false_iff, ?negb_false_iff,
      ?Z.eqb_eq, ?Z.ltb_ge; simpl; intuition (congruence || lia).
Qed.

Lemma filter_keeps_satisfies filter v :
  filter_keeps filter (filter_dateFrom filter) (filter_dateTo filter) v = true
  ↔ satisfies filter v.
Proof.
  unfold satisfies. rewrite <- in_window_checks. unfold filter_keeps.
  destruct (String.eqb_spec (OrderFilter.Status filter) "") as [Hs|Hs];
    destruct (String.eqb_spec (Status v) (OrderFilter.Status filter)) as [Hs'|Hs'];
    destruct (String.eqb_spec (OrderFilter.ProductID filter) "") as [Hp|Hp];
    destruct (String.eqb_spec (ProductID v) (OrderFilter.ProductID filter)) as [Hp'|Hp'];
    destruct (negb (time.IsZero (filter_dateFrom filter))
              && time.Before (LastUpdated v) (filter_dateFrom filter));
    destruct (negb (time.IsZero (filter_dateTo filter))
              && time.After (LastUpdated v) (filter_dateTo filter));
    simpl; intuition congruence.
Qed.

Lemma ranges_stored sm vs order : ranges sm vs → order ∈ vs ↔ stored sm order.
Proof.
  unfold ranges, stored. intros ->. rewrite list_elem_of_fmap. split.
  - intros ([k o] & -> & Hin). exists k. by apply elem_of_map_to_list.
  - intros (k & Hk). exists (k, order). split; [done|].
    by apply elem_of_map_to_list.
Qed.

Lemma page_StronglySorted offset limit l :
  StronglySorted not_older l → StronglySorted not_older (page offset limit l).
Proof.
  intros Hl. unfold page.
  assert (Hd : StronglySorted not_older (drop (Z.to_nat offset) l)).
  { rewrite <- (take_drop (Z.to_nat offset) l) in Hl.
    by apply StronglySorted_app_1_r in Hl. }
  destruct (0 <? limit); [|exact Hd].
  rewrite <- (take_drop (Z.to_nat limit) (drop (Z.to_nat offset) l)) in Hd.
  by apply StronglySorted_app_1_l in Hd.
Qed.



Example GetFilteredOrders_created_page :
  OrderID <$> GetFilteredOrders jan15_range filter_created_page = ["X1"]
  ∧ OrderID <$> GetFilteredOrders jan15_range no_filter = ["X3"; "X2"; "X1"].
Proof. split; vm_compute; reflexivity. Qed.

(** ** Malformed dates *)

Lemma malformed_date_from_is_no_filter vs filter s :
  time.Parse_date s = None →
  GetFilteredOrders vs (with_DateFrom filter s)
  = GetFilteredOrders vs (with_DateFrom filter "").
Proof.
  intros Hs. unfold GetFilteredOrders, filter_dateFrom, filter_dateTo,
    Parse_or_zero. simpl. rewrite Hs.
  by destruct (String.eqb s "").
Qed.

Lemma malformed_date_to_window filter s :
  s ≠ "" → time.Parse_date s = None →
  filter_dateTo (with_DateTo filter s) = time.Add 0 end_of_day.
Proof.
  intros Hne Hs. unfold filter_dateTo, Parse_or_zero. simpl. rewrite Hs.
  destruct (String.eqb_spec s ""); [done|]. reflexivity.
Qed.

Lemma malformed_date_to_keeps_nothing vs filter s :
  s ≠ "" → time.Parse_date s = None →
  Forall (λ order, time.Add 0 end_of_day < LastUpdated order) vs →
  GetFilteredOrders vs (with_DateTo filter s) = [].
Proof.
  intros Hne Hs Hall.
  assert (Hnone : List.filter
            (filter_keeps (with_DateTo filter s)
               (filter_dateFrom (with_DateTo filter s))
               (filter_dateTo (with_DateTo filter s))) vs = []).
  { rewrite (malformed_date_to_window filter s Hne Hs).
    induction Hall as [|o vs Ho _ IH]; [done|]. simpl. rewrite IH.
    unfold filter_keeps, time.IsZero, time.After.
    destruct (Z.ltb_spec (time.Add 0 end_of_day) (LastUpdated o)); [|lia].
    replace (time.Add 0 end_of_day =? 0) with false by reflexivity.
    simpl. by repeat case_match. }
  unfold GetFilteredOrders. rewrite Hnone, paginate_page.
  unfold sort_Slice, page. simpl. rewrite drop_nil.
  by destruct (0 <? _); rewrite ?take_nil.
Qed.

(** C5, on the code. A malformed [date_to] is not treated as no filter: the
    end-of-day offset is added to the zero time the failed parse leaves, the
    bound is no longer zero, and every order updated after the first day of
    year 1 is dropped. With the [date_to] "15/01/2024" the listing of the
    three-order store is empty, while with [date_to] left empty it holds
    the three orders. *)
Theorem C5_malformed_date_to_empties_listing :
  time.Parse_date "15/01/2024" = None
  ∧ ranges jan15_store jan15_range
  ∧ GetFilteredOrders jan15_range (with_DateTo no_filter "15/01/2024") = []
  ∧ OrderID <$> GetFilteredOrders jan15_range (with_DateTo no_filter "")
    = ["X3"; "X2"; "X1"].
Proof.
  split; [reflexivity|]. split; [unfold ranges; reflexivity|].
  split; vm_compute; reflexivity.
Qed.

(** ** Substrings *)







Lemma elem_of_List_filter {A} (f : A → bool) (l : list A) x :
  x ∈ List.filter f l ↔ x ∈ l ∧ f x = true.
Proof. rewrite !list_elem_of_In, filter_In. tauto. Qed.



Example SearchOrders_ship :
  OrderID <$> SearchOrders jan15_range "SHIP" = ["X3"]
  ∧ OrderID <$> SearchOrders jan15_range "x" = ["X3"; "X2"; "X1"]
  ∧ SearchOrders jan15_range "paid" = [].
Proof. repeat split; vm_compute; reflexivity. Qed.

(** ** The recent orders *)

Lemma RecentOrders_first_ten vs :
  RecentOrders (GetStatistics vs) = sort_Slice newer (take 10 vs).
Proof.
  unfold GetStatistics. simpl.
  destruct (stats_loop_fold vs stats_init) as (_ & _ & _ & ->). reflexivity.
Qed.

Lemma eleven_ranges : ranges eleven_store eleven_range.
Proof.
  unfold ranges, eleven_range, eleven_store. cbn [orders].
  rewrite map_to_list_to_map; [reflexivity|].
  apply (bool_decide_unpack _). vm_compute. reflexivity.
Qed.

Example eleven_store_from_events :
  (apply_events (NewStatusManager, net0) eleven_events).1 = eleven_store.
Proof. vm_compute. reflexivity. Qed.

(** C8, on the code. The recent orders are the first ten orders that
    [range] visits, sorted afterwards. On the store of eleven orders updated
    at times 1 to 11, visited from the oldest to the newest, the list holds
    the orders of times 10 down to 1: the order of time 1 is in it, and the
    order of the store updated last, at time 11, is not. *)
Theorem C8_recent_orders_miss_the_newest :
  ranges eleven_store eleven_range
  ∧ size (orders eleven_store) = 11%nat
  ∧ (OrderID <$> RecentOrders (GetStatistics eleven_range))
    = ["o10"; "o09"; "o08"; "o07"; "o06"; "o05"; "o04"; "o03"; "o02"; "o01"]
  ∧ created_at "o01" 1 ∈ RecentOrders (GetStatistics eleven_range)
  ∧ stored eleven_store (created_at "o11" 11)
  ∧ (created_at "o11" 11 ∉ RecentOrders (GetStatistics eleven_range))
  ∧ LastUpdated (created_at "o01" 1) < LastUpdated (created_at "o11" 11).
Proof.
  assert (Hids : OrderID <$> RecentOrders (GetStatistics eleven_range)
    = ["o10"; "o09"; "o08"; "o07"; "o06"; "o05"; "o04"; "o03"; "o02"; "o01"])
    by (vm_compute; reflexivity).
  split; [apply eleven_ranges|].
  split; [rewrite <- (ranges_length _ _ eleven_ranges); reflexivity|].
  split; [exact Hids|].
  split.
  { rewrite RecentOrders_first_ten, sort_Slice_Permutation.
    apply list_elem_of_here. }
  split.
  { apply (ranges_stored _ _ _ eleven_ranges).
    unfold eleven_range, eleven. simpl. do 10 apply list_elem_of_further.
    apply list_elem_of_here. }
  split; [|reflexivity].
  intros Hin. apply (list_elem_of_fmap_2 OrderID) in Hin.
  rewrite Hids in Hin. vm_compute in Hin.
  repeat (apply elem_of_cons in Hin as [Hin|Hin]; [discriminate|]).
  by apply elem_of_nil in Hin.
Qed.

(** ** Subscribers *)

Lemma notify_fold_wire message cs active net :
  ∃ later,
    wire (fold_left (notify_step message) cs (active, net)).2
    = wire net ++ later.
Proof.
  revert active net. induction cs as [|c cs IH]; intros active net; simpl.
  - exists []. by rewrite app_nil_r.
  - unfold WriteMessage. destruct (bool_decide (c ∈ gone net)).
    + destruct (IH active (Close net c)) as (later & ->). by exists later.
    + destruct (IH (active ++ [c])
                  {| wire := wire net ++ [(c, message)]; gone := gone net |})
        as (later & ->).
      simpl. exists ((c, message) :: later). by rewrite <- app_assoc.
Qed.

Lemma notifyClients_wire sm net oid order :
  ∃ later, wire (notifyClients sm net oid order).2 = wire net ++ later.
Proof.
  unfold notifyClients. destruct (clients sm !! oid) as [cs|].
  - destruct (notify_fold_wire order cs [] net) as (later & Hl).
    destruct (fold_left _ _ _). by exists later.
  - exists []. by rewrite app_nil_r.
Qed.

Lemma apply_events_wire st evs :
  ∃ later, wire (apply_events st evs).2 = wire st.2 ++ later.
Proof.
  revert st. induction evs as [|e evs IH]; intros st; simpl.
  - exists []. by rewrite app_nil_r.
  - destruct (IH (apply_event st e)) as (later & ->).
    unfold apply_event, UpdateOrderStatus.
    destruct (notifyClients_wire
                {| orders := <[ev_orderID e := updated_order st.1 (ev_orderID e)
                                 (ev_eventType e) (ev_data e) (ev_now1 e) (ev_now2 e)]>
                               (orders st.1);
                   clients := clients st.1 |}
                st.2 (ev_orderID e)
                (updated_order st.1 (ev_orderID e) (ev_eventType e) (ev_data e)
                   (ev_now1 e) (ev_now2 e))) as (first & ->).
    exists (first ++ later). by rewrite app_assoc.
Qed.

(** C9, as the code has it. A subscriber whose transport is up connects to
    an order identifier. If the store has an order for it, the connection
    is written exactly one message, the current state of that order, and
    nothing else is written; whatever events are applied afterwards, their
    pushes come after that message. If the store has no order for the
    identifier, nothing is written on connect. *)
Theorem C9_snapshot_on_connect_when_order_exists (sm : StatusManager)
    (net : Net) (orderID : string) (conn : Conn) :
  conn ∉ gone net →
  (∀ order, orders sm !! orderID = Some order →
     wire (AddClient sm net orderID conn).2 = wire net ++ [(conn, order)]
     ∧ received (AddClient sm net orderID conn).2 conn
       = received net conn ++ [order]
     ∧ ∀ evs, ∃ later,
         wire (apply_events (AddClient sm net orderID conn) evs).2
         = wire net ++ (conn, order) :: later)
  ∧ (orders sm !! orderID = None →
     wire (AddClient sm net orderID conn).2 = wire net).
Proof.
  intros Hup. split.
  - intros order Horder.
    assert (Hwire : wire (AddClient sm net orderID conn).2
                    = wire net ++ [(conn, order)]).
    { unfold AddClient, WriteMessage. rewrite Horder.
      by rewrite bool_decide_eq_false_2. }
    split; [exact Hwire|]. split.
    + unfold received. rewrite Hwire, filter_app, fmap_app.
      by rewrite filter_cons_True.
    + intros evs.
      destruct (apply_events_wire (AddClient sm net orderID conn) evs)
        as (later & ->).
      rewrite Hwire. exists later. by rewrite <- app_assoc.
  - intros Hnone. unfold AddClient. by rewrite Hnone.
Qed.

Lemma C9_snapshot_on_connect_when_order_exists_witness :
  (7%nat ∉ gone net0)
  ∧ orders jan15_store !! "X1" = Some (created_at "X1" (time.Date 2024 1 15 + 10))
  ∧ received (AddClient jan15_store net0 "X1" 7%nat).2 7%nat
    = [created_at "X1" (time.Date 2024 1 15 + 10)].
Proof.
  assert (Hup : 7%nat ∉ gone net0) by apply not_elem_of_empty.
  assert (Horder : orders jan15_store !! "X1"
                   = Some (created_at "X1" (time.Date 2024 1 15 + 10)))
    by (vm_compute; reflexivity).
  split; [exact Hup|]. split; [exact Horder|].
  exact (proj1 (proj2 (proj1
    (C9_snapshot_on_connect_when_order_exists jan15_store net0 "X1" 7%nat Hup)
    _ Horder))).
Defined.

(** C9, as stated, fails when no event has been observed for the
    identifier: a subscriber that connects to the unknown order "X" on a
    working transport is written nothing, and the first message it is
    written is the push of the first event applied to "X". *)
Lemma C9_no_snapshot_for_unknown_order :
  orders NewStatusManager !! "X" = None
  ∧ (7%nat ∉ gone net0)
  ∧ received (AddClient NewStatusManager net0 "X" 7%nat).2 7%nat = []
  ∧ length (received (AddClient NewStatusManager net0 "X" 7%nat).2 7%nat) ≠ 1%nat
  ∧ received (apply_events (AddClient NewStatusManager net0 "X" 7%nat)
                [creation_of_X]).2 7%nat
    = [created_at "X" 5].
Proof.
  split; [reflexivity|]. split; [apply not_elem_of_empty|].
  split; [reflexivity|]. split; [discriminate|].
  vm_compute. reflexivity.
Qed.

Lemma C1_status_is_effect_of_last_kind_witness :
  table_status "PaymentFailed" = Some "payment_failed"%string
  ∧ Forall (λ e', ev_orderID e' ≠ "A"%string) [creation_of_X]
  ∧ Status <$> orders
      (apply_events (NewStatusManager, net0)
         (scenario_D_events
          ++ {| ev_orderID := "A"; ev_eventType := "PaymentFailed";
                ev_data := ∅; ev_now1 := 400; ev_now2 := 401 |}
             :: [creation_of_X])).1 !! "A"
    = Some "payment_failed"%string.
Proof.
  assert (Hk : table_status "PaymentFailed" = Some "payment_failed"%string)
    by reflexivity.
  assert (Hpost : Forall (λ e', ev_orderID e' ≠ "A"%string) [creation_of_X])
    by (repeat constructor; discriminate).
  split; [exact Hk|]. split; [exact Hpost|].
  exact (C1_status_is_effect_of_last_kind (NewStatusManager, net0)
           scenario_D_events [creation_of_X]
           {| ev_orderID := "A"; ev_eventType := "PaymentFailed";
              ev_data := ∅; ev_now1 := 400; ev_now2 := 401 |}
           "payment_failed" Hk Hpost).
Defined.

(** * Further properties of the service *)

(** ** What every reachable store looks like *)

Lemma as_string_Some v s : as_string v = Some s ↔ v = Some (JString s).
Proof.
  destruct v as [[]|]; simpl; split; intros H; try discriminate;
    by simplify_eq.
Qed.

Lemma switch_OrderID k d o : OrderID (switch_eventType k d o) = OrderID o.
Proof.
  unfold switch_eventType.
  repeat (destruct (String.eqb k _); [repeat case_match; reflexivity|]).
  reflexivity.
Qed.

Lemma switch_Status_statuses k d o :
  Status o ∈ statuses → Status (switch_eventType k d o) ∈ statuses.
Proof.
  intros Ho. unfold switch_eventType.
  repeat (destruct (String.eqb k _);
          [repeat case_match; simpl; unfold statuses;
           repeat first [apply list_elem_of_here | apply list_elem_of_further]|]).
  exact Ho.
Qed.

Lemma AddClient_orders sm net oid conn :
  orders (AddClient sm net oid conn).1 = orders sm.
Proof. unfold AddClient. by destruct (orders sm !! oid). Qed.

Lemma DeleteOrder_orders sm oid :
  orders (DeleteOrder sm oid).1 = delete oid (orders sm).
Proof.
  unfold DeleteOrder. destruct (orders sm !! oid) eqn:E; simpl; [done|].
  by rewrite delete_id.
Qed.

Lemma well_formed_UpdateOrderStatus sm net oid k d t1 t2 :
  d !! "order_id" = Some (JString oid) →
  d !! "event_type" = Some (JString k) →
  well_formed sm →
  well_formed (UpdateOrderStatus sm net oid k d t1 t2).1.
Proof.
  intros Hid Hk Hwf key o. rewrite UpdateOrderStatus_orders.
  destruct (decide (oid = key)) as [<-|Hne].
  - rewrite lookup_insert_eq. intros [= <-].
    split; [|split; [|split]].
    + unfold updated_order. rewrite switch_OrderID. simpl.
      destruct (orders sm !! oid) as [o|] eqn:Ho; [|done].
      by apply (Hwf oid o).
    + rewrite updated_order_Events. by destruct (history sm oid).
    + unfold updated_order. apply switch_Status_statuses. simpl.
      destruct (orders sm !! oid) as [o|] eqn:Ho.
      * by apply (Hwf oid o).
      * apply list_elem_of_here.
    + rewrite updated_order_Events. apply Forall_app. split.
      * unfold history. destruct (orders sm !! oid) as [o|] eqn:Ho; [|done].
        by apply (Hwf oid o).
      * by repeat constructor.
  - rewrite lookup_insert_ne by done. apply Hwf.
Qed.

Lemma well_formed_step st op : well_formed st.1 → well_formed (step st op).1.
Proof.
  intros Hwf. destruct op as [d t1 t2|oid conn|oid|conn]; simpl.
  - unfold consumeEvent.
    destruct (as_string (d !! "order_id")) as [oid|] eqn:Hid; [|done].
    destruct (as_string (d !! "event_type")) as [k|] eqn:Hk; [|done].
    apply as_string_Some in Hid, Hk.
    by apply well_formed_UpdateOrderStatus.
  - intros key o. rewrite AddClient_orders. apply Hwf.
  - intros key o. rewrite DeleteOrder_orders.
    intros [_ Ho]%lookup_delete_Some. by apply Hwf.
  - exact Hwf.
Qed.

Lemma well_formed_run ops : well_formed (run initial ops).1.
Proof.
  unfold run. induction ops as [|op ops IH] using rev_ind.
  - intros key o. simpl. by rewrite lookup_empty.
  - rewrite fold_left_app. simpl. by apply well_formed_step.
Qed.

(** X1. In every state the service can reach, an order is stored under its
    own identifier, has at least one event in its history, and has one of
    the seven statuses of the switch. *)
Theorem reachable_orders_are_keyed_and_have_history (ops : list Op)
    (orderID : string) (order : OrderStatus) :
  orders (run initial ops).1 !! orderID = Some order →
  OrderID order = orderID
  ∧ Events order ≠ []
  ∧ Status order ∈ statuses.
Proof.
  intros Ho. destruct (well_formed_run ops orderID order Ho) as (?&?&?&?).
  done.
Qed.

Lemma reachable_orders_are_keyed_and_have_history_witness :
  orders (run initial [Consume payment_with_amount 1 2]).1 !! "Y"
  = Some (updated_order NewStatusManager "Y" "PaymentCompleted"
            payment_with_amount 1 2)
  ∧ OrderID (updated_order NewStatusManager "Y" "PaymentCompleted"
               payment_with_amount 1 2) = "Y"%string
  ∧ Events (updated_order NewStatusManager "Y" "PaymentCompleted"
              payment_with_amount 1 2) ≠ []
  ∧ Status (updated_order NewStatusManager "Y" "PaymentCompleted"
              payment_with_amount 1 2) ∈ statuses.
Proof.
  assert (H : orders (run initial [Consume payment_with_amount 1 2]).1 !! "Y"
              = Some (updated_order NewStatusManager "Y" "PaymentCompleted"
                        payment_with_amount 1 2))
    by (vm_compute; reflexivity).
  split; [exact H|].
  exact (reachable_orders_are_keyed_and_have_history
           [Consume payment_with_amount 1 2] "Y" _ H).
Defined.

(** X2. In every state the service can reach, the lookup handler and the
    history handler answer 404 exactly for the identifiers the store has no
    order for. For the others the lookup handler answers the stored order,
    and the history handler the identifier, a history that is not empty and
    its length as the count; the payload of every record names that
    identifier and the kind of the record. *)
Theorem lookup_handlers_on_reachable_states (ops : list Op) (orderID : string) :
  (orders (run initial ops).1 !! orderID = None
   ∧ getOrderStatus (run initial ops).1 orderID
     = StatusNotFound "Order not found"
   ∧ getOrderEvents (run initial ops).1 orderID
     = EventsNotFound "Order not found")
  ∨ (∃ order,
       orders (run initial ops).1 !! orderID = Some order
       ∧ getOrderStatus (run initial ops).1 orderID = StatusOK order
       ∧ getOrderEvents (run initial ops).1 orderID
         = EventsOK orderID (Events order) (length (Events order))
       ∧ (0 < length (Events order))%nat
       ∧ Forall (carries_identity orderID) (Events order)).
Proof.
  unfold getOrderEvents, getOrderStatus, GetOrderStatus.
  destruct (orders (run initial ops).1 !! orderID) as [o|] eqn:Ho.
  - right. exists o.
    destruct (well_formed_run ops orderID o Ho) as (_ & Hne & _ & Hid).
    repeat split; [|exact Hid].
    destruct (Events o); [done | simpl; lia].
  - by left.
Qed.

(** ** Deletion *)

(** X3. [DeleteOrder] answers whether the store had the order. If it had,
    the order and the subscribers registered for it are gone afterwards; if
    it had not, nothing changes (subscribers waiting on an identifier that
    has no order stay registered). Every other identifier keeps its order
    and its subscribers. *)
Theorem DeleteOrder_removes_order_and_subscribers (sm : StatusManager)
    (orderID : string) :
  (DeleteOrder sm orderID).2 = bool_decide (is_Some (orders sm !! orderID))
  ∧ orders (DeleteOrder sm orderID).1 !! orderID = None
  ∧ clients (DeleteOrder sm orderID).1 !! orderID
    = (if (DeleteOrder sm orderID).2 then None else clients sm !! orderID)
  ∧ ((DeleteOrder sm orderID).2 = false → (DeleteOrder sm orderID).1 = sm)
  ∧ ∀ other, other ≠ orderID →
      orders (DeleteOrder sm orderID).1 !! other = orders sm !! other
      ∧ clients (DeleteOrder sm orderID).1 !! other = clients sm !! other.
Proof.
  unfold DeleteOrder. destruct (orders sm !! orderID) as [o|] eqn:Ho; simpl.
  - rewrite !lookup_delete_eq. repeat split; try done.
    + by rewrite lookup_delete_ne.
    + by rewrite lookup_delete_ne.
  - repeat split; done.
Qed.

(** X4. The history of an order does not survive its deletion, and neither
    do its subscriptions: the first event applied to the identifier after
    the deletion builds the order as if the identifier had never been seen,
    with that event as its whole history, and writes to no connection. *)
Theorem event_after_delete_starts_afresh (sm : StatusManager) (net : Net)
    (orderID eventType : string) (data : gmap string JSON)
    (now1 now2 : time.Time) :
  is_Some (orders sm !! orderID) →
  orders (UpdateOrderStatus (DeleteOrder sm orderID).1 net orderID eventType
            data now1 now2).1 !! orderID
  = Some (updated_order NewStatusManager orderID eventType data now1 now2)
  ∧ history (UpdateOrderStatus (DeleteOrder sm orderID).1 net orderID
               eventType data now1 now2).1 orderID
    = [{| EventType := eventType; Data := data; Timestamp := now1 |}]
  ∧ (UpdateOrderStatus (DeleteOrder sm orderID).1 net orderID eventType
       data now1 now2).2 = net.
Proof.
  intros [o Ho].
  destruct (DeleteOrder_removes_order_and_subscribers sm orderID)
    as (Hret & Hgone & Hcl & _).
  rewrite Ho, bool_decide_eq_true_2 in Hret by eauto. rewrite Hret in Hcl.
  assert (Hupd : updated_order (DeleteOrder sm orderID).1 orderID eventType
                   data now1 now2
                 = updated_order NewStatusManager orderID eventType data
                     now1 now2).
  { unfold updated_order. by rewrite Hgone. }
  split; [|split].
  - by rewrite UpdateOrderStatus_orders, lookup_insert_eq, Hupd.
  - rewrite history_UpdateOrderStatus, String.eqb_refl.
    unfold history. by rewrite Hgone.
  - unfold UpdateOrderStatus, notifyClients. simpl. by rewrite Hcl.
Qed.

Lemma event_after_delete_starts_afresh_witness :
  is_Some (orders scenario_A.1 !! "X")
  ∧ history (UpdateOrderStatus (DeleteOrder scenario_A.1 "X").1 scenario_A.2
               "X" "Shipped" ∅ 20 21).1 "X"
    = [{| EventType := "Shipped"; Data := ∅; Timestamp := 20 |}]
  ∧ (UpdateOrderStatus (DeleteOrder scenario_A.1 "X").1 scenario_A.2
       "X" "Shipped" ∅ 20 21).2 = scenario_A.2.
Proof.
  assert (H : is_Some (orders scenario_A.1 !! "X"))
    by (vm_compute; eexists; reflexivity).
  split; [exact H|].
  exact (proj2 (event_after_delete_starts_afresh scenario_A.1 scenario_A.2
                  "X" "Shipped" ∅ 20 21 H)).
Defined.

Lemma size_delete_present (m : gmap string OrderStatus) i o :
  m !! i = Some o → size m = S (size (delete i m)).
Proof.
  intros Hi. rewrite <- (insert_delete_id m i o Hi) at 1.
  apply map_size_insert_None, lookup_delete_eq.
Qed.

Lemma bulk_fold ids sm d n :
  ∃ sm' d' n',
    fold_left bulk_step ids (sm, d, n) = (sm', d', n')
    ∧ (d' + n' = d + n + length ids)%nat
    ∧ (d' + size (orders sm') = d + size (orders sm))%nat
    ∧ (∀ k, orders sm' !! k
            = if bool_decide (k ∈ ids) then None else orders sm !! k)
    ∧ (∀ k, k ∉ ids → clients sm' !! k = clients sm !! k).
Proof.
  revert sm d n. induction ids as [|id ids IH]; intros sm d n.
  - exists sm, d, n. simpl. repeat split; try lia; try done.
  - simpl fold_left.
    destruct (DeleteOrder_removes_order_and_subscribers sm id)
      as (Hret & _ & _ & Hsame & Hother).
    pose proof (DeleteOrder_orders sm id) as Hdel.
    destruct (DeleteOrder sm id) as [sm1 b]. simpl in *.
    assert (Hlook : ∀ k, (if bool_decide (k ∈ ids) then None
                          else orders sm1 !! k)
                         = if bool_decide (k ∈ id :: ids) then None
                           else orders sm !! k).
    { intros k. rewrite Hdel.
      destruct (decide (k = id)) as [->|Hne].
      - rewrite lookup_delete_eq.
        rewrite (bool_decide_eq_true_2 (id ∈ id :: ids))
          by apply list_elem_of_here.
        by destruct (bool_decide (id ∈ ids)).
      - rewrite lookup_delete_ne by done.
        destruct (decide (k ∈ ids)) as [Hin|Hnin].
        + rewrite (bool_decide_eq_true_2 (k ∈ ids)) by done.
          rewrite (bool_decide_eq_true_2 (k ∈ id :: ids)); [done|].
          by apply list_elem_of_further.
        + rewrite (bool_decide_eq_false_2 (k ∈ ids)) by done.
          rewrite (bool_decide_eq_false_2 (k ∈ id :: ids)); [done|].
          by intros [?|?]%elem_of_cons. }
    destruct b.
    + destruct (IH sm1 (S d) n) as (sm' & d' & n' & -> & H1 & H2 & H3 & H4).
      exists sm', d', n'. split; [done|].
      symmetry in Hret. apply bool_decide_eq_true in Hret as [o Ho].
      rewrite Hdel in H2.
      pose proof (size_delete_present (orders sm) id o Ho) as Hsize.
      repeat split; try (simpl; lia).
      * intros k. by rewrite H3, Hlook.
      * intros k [Hne Hk]%not_elem_of_cons. rewrite H4 by done.
        by apply Hother.
    + destruct (IH sm1 d (S n)) as (sm' & d' & n' & -> & H1 & H2 & H3 & H4).
      exists sm', d', n'. split; [done|].
      rewrite (Hsame eq_refl) in *.
      repeat split; try (simpl; lia).
      * intros k. by rewrite H3, Hlook.
      * intros k [Hne Hk]%not_elem_of_cons. by apply H4.
Qed.

(** X5. A bulk deletion answers the number of identifiers requested, split
    into deleted and not found; the deleted ones are as many as the store
    has lost orders (an identifier listed twice is deleted once and not
    found the second time). Afterwards the store has no order for any
    listed identifier and still has every other order, and identifiers that
    were not listed keep their subscribers. *)
Theorem bulkDeleteOrders_counts_and_effect (sm : StatusManager)
    (ids : list string) :
  total_requested (bulkDeleteOrders sm ids).2 = length ids
  ∧ (deleted (bulkDeleteOrders sm ids).2
     + not_found (bulkDeleteOrders sm ids).2 = length ids)%nat
  ∧ (deleted (bulkDeleteOrders sm ids).2
     + size (orders (bulkDeleteOrders sm ids).1) = size (orders sm))%nat
  ∧ (∀ k, orders (bulkDeleteOrders sm ids).1 !! k
          = if bool_decide (k ∈ ids) then None else orders sm !! k)
  ∧ (∀ k, k ∉ ids →
          clients (bulkDeleteOrders sm ids).1 !! k = clients sm !! k).
Proof.
  unfold bulkDeleteOrders.
  destruct (bulk_fold ids sm 0%nat 0%nat)
    as (sm' & d' & n' & -> & H1 & H2 & H3 & H4).
  simpl. repeat split; try lia; done.
Qed.

Example bulkDeleteOrders_duplicate :
  (bulkDeleteOrders scenario_D ["A"; "Z"; "A"]).2
  = {| deleted := 1; not_found := 2; total_requested := 3 |}.
Proof. vm_compute. reflexivity. Qed.

(** ** Pushing to subscribers *)

Lemma Close_gone net conn : conn ∈ gone net → Close net conn = net.
Proof.
  intros Hin. destruct net as [w g]. unfold Close. simpl in *.
  f_equal. apply subseteq_union_1_L. by apply singleton_subseteq_l.
Qed.

Lemma notify_fold message cs active net :
  fold_left (notify_step message) cs (active, net)
  = (active ++ live net cs,
     {| wire := wire net ++ ((λ conn, (conn, message)) <$> live net cs);
        gone := gone net |}).
Proof.
  revert active net. induction cs as [|c cs IH]; intros active net.
  - simpl. rewrite !app_nil_r. by destruct net.
  - simpl fold_left. unfold WriteMessage.
    unfold live. simpl List.filter.
    destruct (bool_decide (c ∈ gone net)) eqn:Hc; simpl.
    + apply bool_decide_eq_true in Hc. rewrite (Close_gone net c Hc).
      apply IH.
    + rewrite IH. unfold live. simpl. by rewrite <- !app_assoc.
Qed.

Lemma notifyClients_live sm net oid order :
  notifyClients sm net oid order
  = match clients sm !! oid with
    | None => (sm, net)
    | Some cs =>
        ({| orders := orders sm;
            clients := <[oid := live net cs]> (clients sm) |},
         {| wire := wire net ++ ((λ conn, (conn, order)) <$> live net cs);
            gone := gone net |})
    end.
Proof.
  unfold notifyClients. destruct (clients sm !! oid) as [cs|]; [|done].
  by rewrite notify_fold.
Qed.

(** X6. Applying an event writes the new state of the order once to every
    registered connection of that order whose transport is up, in the order
    of registration, and to no other connection. The registry of the order
    keeps exactly those connections (the ones whose write failed are
    dropped), the registrations of other orders are untouched, and no
    transport changes state. *)
Theorem UpdateOrderStatus_pushes_to_live_subscribers (sm : StatusManager)
    (net : Net) (orderID eventType : string) (data : gmap string JSON)
    (now1 now2 : time.Time) :
  wire (UpdateOrderStatus sm net orderID eventType data now1 now2).2
  = wire net
    ++ ((λ conn, (conn, updated_order sm orderID eventType data now1 now2))
          <$> live net (subscribers sm orderID))
  ∧ gone (UpdateOrderStatus sm net orderID eventType data now1 now2).2
    = gone net
  ∧ subscribers (UpdateOrderStatus sm net orderID eventType data now1 now2).1
      orderID
    = live net (subscribers sm orderID)
  ∧ ∀ other, other ≠ orderID →
      clients (UpdateOrderStatus sm net orderID eventType data now1 now2).1
        !! other
      = clients sm !! other.
Proof.
  unfold UpdateOrderStatus, subscribers. rewrite notifyClients_live. simpl.
  destruct (clients sm !! orderID) as [cs|] eqn:Hcs; simpl.
  - rewrite lookup_insert_eq. simpl. repeat split; try done.
    intros other Hne. by rewrite lookup_insert_ne.
  - rewrite Hcs, app_nil_r. simpl. done.
Qed.

Lemma received_app net conn (msgs : list (Conn * OrderStatus)) :
  received {| wire := wire net ++ msgs; gone := gone net |} conn
  = received net conn ++ (filter (λ p, p.1 = conn) msgs).*2.
Proof. unfold received. simpl. by rewrite filter_app, fmap_app. Qed.

Lemma pushed_to conn (order : OrderStatus) (cs : list Conn) :
  (filter (λ p : Conn * OrderStatus, p.1 = conn)
     ((λ c, (c, order)) <$> cs)).*2
  = replicate (length (filter (λ c, c = conn) cs)) order.
Proof.
  induction cs as [|c cs IH]; [done|]. rewrite fmap_cons.
  destruct (decide (c = conn)) as [->|Hne].
  - rewrite !filter_cons_True by done. rewrite fmap_cons.
    cbn [length replicate snd]. f_equal. exact IH.
  - rewrite !filter_cons_False by done. exact IH.
Qed.

Lemma live_count net conn cs :
  conn ∉ gone net →
  length (filter (λ c, c = conn) (live net cs))
  = length (filter (λ c, c = conn) cs).
Proof.
  intros Hup. unfold live. induction cs as [|c cs IH]; [done|]. simpl.
  destruct (decide (c = conn)) as [->|Hne].
  - rewrite bool_decide_eq_false_2 by done. simpl.
    rewrite !filter_cons_True by done. simpl. by rewrite IH.
  - rewrite (filter_cons_False _ c cs) by done.
    destruct (negb _); [|done]. by rewrite filter_cons_False.
Qed.

Lemma live_not_elem net conn cs : conn ∉ cs → conn ∉ live net cs.
Proof.
  intros Hnin Hin. apply Hnin. unfold live in Hin.
  apply elem_of_List_filter in Hin. tauto.
Qed.

Lemma count_not_elem (conn : Conn) cs :
  conn ∉ cs → length (filter (λ c, c = conn) cs) = 0%nat.
Proof.
  induction cs as [|c cs IH]; [done|].
  intros [Hne Hnin]%not_elem_of_cons.
  rewrite filter_cons_False by done. by apply IH.
Qed.

Lemma received_apply_events sm net orderID conn evs :
  conn ∉ gone net →
  length (filter (λ c, c = conn) (subscribers sm orderID)) = 1%nat →
  (∀ other, other ≠ orderID → conn ∉ subscribers sm other) →
  received (apply_events (sm, net) evs).2 conn
  = received net conn ++ snapshots (sm, net) orderID evs.
Proof.
  revert sm net. induction evs as [|e evs IH]; intros sm net Hup Hone Hothers.
  - simpl. by rewrite app_nil_r.
  - change (apply_events (sm, net) (e :: evs))
      with (apply_events (apply_event (sm, net) e) evs).
    cbn [snapshots fst].
    destruct (UpdateOrderStatus_pushes_to_live_subscribers sm net
                (ev_orderID e) (ev_eventType e) (ev_data e)
                (ev_now1 e) (ev_now2 e)) as (Hwire & Hgone & Hsubs & Hframe).
    change (UpdateOrderStatus sm net (ev_orderID e) (ev_eventType e)
              (ev_data e) (ev_now1 e) (ev_now2 e))
      with (apply_event (sm, net) e) in Hwire, Hgone, Hsubs, Hframe.
    destruct (apply_event (sm, net) e) as [sm1 net1].
    cbn [fst snd] in *.
    assert (Hrec : received net1 conn
                   = received net conn
                     ++ replicate
                          (length (filter (λ c, c = conn)
                                     (live net (subscribers sm (ev_orderID e)))))
                          (updated_order sm (ev_orderID e) (ev_eventType e)
                             (ev_data e) (ev_now1 e) (ev_now2 e))).
    { unfold received. rewrite Hwire, filter_app, fmap_app. f_equal.
      apply pushed_to. }
    assert (Hsub1 : ∀ k, k ≠ ev_orderID e → subscribers sm1 k = subscribers sm k).
    { intros k Hk. unfold subscribers. by rewrite Hframe. }
    rewrite IH; [rewrite Hrec, <- app_assoc; f_equal| | |].
    + destruct (String.eqb_spec (ev_orderID e) orderID) as [He|Hne].
      * rewrite He, live_count, Hone by done. reflexivity.
      * rewrite count_not_elem; [done|].
        apply live_not_elem, Hothers. done.
    + by rewrite Hgone.
    + destruct (decide (orderID = ev_orderID e)) as [->|Hne].
      * rewrite Hsubs, live_count by done. exact Hone.
      * rewrite Hsub1 by done. exact Hone.
    + intros other Hother.
      destruct (decide (other = ev_orderID e)) as [->|Hne].
      * rewrite Hsubs. by apply live_not_elem, Hothers.
      * rewrite Hsub1 by done. by apply Hothers.
Qed.

(** X7. Snapshot, then one push per event. A connection that is registered
    nowhere and whose transport is up subscribes to an order; events are
    then applied. What the connection is written is: the state of the order
    at the time of subscribing, if the store had the order, and then the
    state of the order right after each event addressed to it, once each
    and in order; nothing for the events of other orders. *)
Theorem subscriber_gets_snapshot_then_every_update (sm : StatusManager)
    (net : Net) (orderID : string) (conn : Conn) (evs : list Event) :
  conn ∉ gone net →
  (∀ k, conn ∉ subscribers sm k) →
  received (apply_events (AddClient sm net orderID conn) evs).2 conn
  = received net conn
    ++ match orders sm !! orderID with Some order => [order] | None => [] end
    ++ snapshots (AddClient sm net orderID conn) orderID evs.
Proof.
  intros Hup Hfresh.
  assert (Hsubs : subscribers (AddClient sm net orderID conn).1 orderID
                  = subscribers sm orderID ++ [conn]).
  { unfold AddClient, subscribers.
    destruct (orders sm !! orderID); simpl; rewrite lookup_insert_eq; simpl;
      by destruct (clients sm !! orderID). }
  assert (Hother : ∀ k, k ≠ orderID →
            subscribers (AddClient sm net orderID conn).1 k = subscribers sm k).
  { intros k Hk. unfold AddClient, subscribers.
    destruct (orders sm !! orderID); simpl; by rewrite lookup_insert_ne. }
  assert (Hgone : gone (AddClient sm net orderID conn).2 = gone net).
  { unfold AddClient, WriteMessage.
    destruct (orders sm !! orderID); [|done].
    by destruct (bool_decide _). }
  assert (Hrec : received (AddClient sm net orderID conn).2 conn
                 = received net conn
                   ++ match orders sm !! orderID with
                      | Some order => [order] | None => [] end).
  { destruct (orders sm !! orderID) as [o|] eqn:Ho.
    - unfold AddClient, WriteMessage. rewrite Ho.
      rewrite bool_decide_eq_false_2 by done. simpl.
      rewrite (received_app net conn [(conn, o)]).
      by rewrite filter_cons_True.
    - unfold AddClient. rewrite Ho. simpl. by rewrite app_nil_r. }
  destruct (AddClient sm net orderID conn) as [sm1 net1] eqn:Hst.
  simpl in *.
  rewrite (received_apply_events sm1 net1 orderID conn evs).
  - by rewrite Hrec, <- app_assoc.
  - by rewrite Hgone.
  - rewrite Hsubs, filter_app, length_app.
    rewrite (count_not_elem conn (subscribers sm orderID)) by apply Hfresh.
    by rewrite filter_cons_True.
  - intros other Hne. rewrite Hother by done. apply Hfresh.
Qed.

Lemma subscriber_gets_snapshot_then_every_update_witness :
  (3%nat ∉ gone net0)
  ∧ (∀ k, 3%nat ∉ subscribers jan15_store k)
  ∧ received (apply_events (AddClient jan15_store net0 "X1" 3%nat)
                [creation_of_X; shipping_of_X1]).2 3%nat
    = received net0 3%nat
      ++ match orders jan15_store !! "X1" with
         | Some order => [order] | None => [] end
      ++ snapshots (AddClient jan15_store net0 "X1" 3%nat) "X1"
           [creation_of_X; shipping_of_X1].
Proof.
  assert (Hup : 3%nat ∉ gone net0) by apply not_elem_of_empty.
  assert (Hfresh : ∀ k, 3%nat ∉ subscribers jan15_store k).
  { intros k. unfold subscribers.
    replace (clients jan15_store) with (∅ : gmap string (list Conn))
      by (vm_compute; reflexivity).
    rewrite lookup_empty. apply not_elem_of_nil. }
  split; [exact Hup|]. split; [exact Hfresh|].
  exact (subscriber_gets_snapshot_then_every_update jan15_store net0 "X1"
           3%nat [creation_of_X; shipping_of_X1] Hup Hfresh).
Defined.

Example subscriber_of_X1_receives_two_messages :
  TrackingNumber <$>
    received (apply_events (AddClient jan15_store net0 "X1" 3%nat)
                [creation_of_X; shipping_of_X1]).2 3%nat
  = [""; "TRK1"]%string.
Proof. vm_compute. reflexivity. Qed.

(** ** Fields that events fill in *)

Ltac on_kind e kind :=
  destruct (String.eqb_spec (ev_eventType e) kind) as [Heq|_];
  [rewrite ?Heq; simpl; repeat case_match; reflexivity|].

Ltac by_kind e :=
  on_kind e "OrderCreated"%string; on_kind e "InventoryConfirmed"%string;
  on_kind e "InventoryRejected"%string; on_kind e "PaymentCompleted"%string;
  on_kind e "PaymentFailed"%string; on_kind e "NotificationSent"%string;
  on_kind e "Shipped"%string; reflexivity.

Lemma switch_TrackingNumber e o :
  TrackingNumber (switch_eventType (ev_eventType e) (ev_data e) o)
  = default (TrackingNumber o) (tracking_of e).
Proof. unfold switch_eventType, tracking_of. by_kind e. Qed.

Lemma switch_PaymentAmount e o :
  PaymentAmount (switch_eventType (ev_eventType e) (ev_data e) o)
  = default (PaymentAmount o) (amount_of e).
Proof. unfold switch_eventType, amount_of. by_kind e. Qed.

Lemma omap_cons_last {A} (f : Event → option A) (x : A) e l :
  default x (last (omap f (e :: l)))
  = default (default x (f e)) (last (omap f l)).
Proof.
  change (omap f (e :: l))
    with (match f e with Some y => y :: omap f l | None => omap f l end).
  destruct (f e) as [a|]; [|reflexivity].
  rewrite last_cons. destruct (last (omap f l)); reflexivity.
Qed.

(** X8. The tracking number and the payment amount of an order change only
    when an event supplies them. After any sequence of events, the tracking
    number of an order is the one carried by the last shipping event
    addressed to it that had a string under [tracking_number], and its
    payment amount the one of the last payment-completed event addressed to
    it that had a number under [amount]; if no such event was applied, the
    field is what it was before the sequence (empty or zero for an order the
    sequence created). No other event clears or changes these fields. *)
Theorem tracking_and_amount_come_from_last_carrying_event
    (st : StatusManager * Net) (orderID : string) (evs : list Event)
    (order' : OrderStatus) :
  orders (apply_events st evs).1 !! orderID = Some order' →
  TrackingNumber order'
  = default (TrackingNumber (default (new_order orderID) (orders st.1 !! orderID)))
      (last (carried orderID tracking_of evs))
  ∧ PaymentAmount order'
    = default (PaymentAmount (default (new_order orderID) (orders st.1 !! orderID)))
        (last (carried orderID amount_of evs)).
Proof.
  revert st. induction evs as [|e evs IH]; intros st Ho'.
  - simpl in *. by rewrite Ho'.
  - change (apply_events st (e :: evs))
      with (apply_events (apply_event st e) evs) in Ho'.
    destruct (IH _ Ho') as [Ht Ha]. rewrite Ht, Ha. clear IH Ht Ha Ho'.
    unfold carried, addressed_to. simpl List.filter.
    unfold apply_event at 1 2. rewrite UpdateOrderStatus_orders.
    destruct (String.eqb_spec (ev_orderID e) orderID) as [<-|Hne].
    + rewrite lookup_insert_eq. cbn [default from_option id].
      unfold updated_order.
      rewrite switch_TrackingNumber, switch_PaymentAmount.
      rewrite !omap_cons_last. split; reflexivity.
    + by rewrite lookup_insert_ne.
Qed.


Lemma tracking_and_amount_come_from_last_carrying_event_witness :
  orders (apply_events (jan15_store, net0)
            [shipping_of_X1; notification_of_X1]).1 !! "X1"
  = Some (updated_order
            (apply_event (jan15_store, net0) shipping_of_X1).1 "X1"
            "NotificationSent" ∅ (time.Date 2024 1 17) (time.Date 2024 1 17))
  ∧ TrackingNumber
      (updated_order
         (apply_event (jan15_store, net0) shipping_of_X1).1 "X1"
         "NotificationSent" ∅ (time.Date 2024 1 17) (time.Date 2024 1 17))
    = default
        (TrackingNumber (default (new_order "X1") (orders jan15_store !! "X1")))
        (last (carried "X1" tracking_of [shipping_of_X1; notification_of_X1])).
Proof.
  assert (H : orders (apply_events (jan15_store, net0)
                        [shipping_of_X1; notification_of_X1]).1 !! "X1"
              = Some (updated_order
                        (apply_event (jan15_store, net0) shipping_of_X1).1 "X1"
                        "NotificationSent" ∅ (time.Date 2024 1 17)
                        (time.Date 2024 1 17)))
    by (vm_compute; reflexivity).
  split; [exact H|].
  exact (proj1 (tracking_and_amount_come_from_last_carrying_event
                  (jan15_store, net0) "X1"
                  [shipping_of_X1; notification_of_X1] _ H)).
Defined.

Example tracking_survives_notification :
  TrackingNumber <$>
    orders (apply_events (jan15_store, net0)
              [shipping_of_X1; notification_of_X1]).1 !! "X1"
  = Some "TRK1"%string.
Proof. vm_compute. reflexivity. Qed.

(** ** The breakdowns and the recent orders of the statistics *)

Lemma tally_fold (key : OrderStatus → option string) vs
    (m : gmap string nat) (s : string) :
  fold_left (λ m o, match key o with Some k => incr k m | None => m end) vs m
    !! s
  = if decide (length (filter (λ o, key o = Some s) vs) = 0%nat) then m !! s
    else Some (default 0%nat (m !! s)
               + length (filter (λ o, key o = Some s) vs))%nat.
Proof.
  revert m. induction vs as [|o vs IH]; intros m; [done|].
  simpl fold_left. rewrite IH. clear IH.
  destruct (decide (key o = Some s)) as [Hk|Hk].
  - rewrite filter_cons_True by done. rewrite Hk. unfold incr.
    rewrite lookup_insert_eq. cbn [length default from_option id].
    set (n := length (filter (λ o, key o = Some s) vs)).
    destruct (decide (S n = 0%nat)); [lia|].
    destruct (decide (n = 0%nat)) as [->|Hn]; f_equal; lia.
  - rewrite filter_cons_False by done.
    destruct (key o) as [k|]; [|done].
    unfold incr. rewrite lookup_insert_ne by congruence. done.
Qed.

Lemma stats_loop_breakdowns vs st :
  l_OrdersByStatus (fold_left stats_step vs st)
  = fold_left (λ m o, match Some (Status o) with
                      | Some k => incr k m | None => m end)
      vs (l_OrdersByStatus st)
  ∧ l_OrdersByProduct (fold_left stats_step vs st)
    = fold_left (λ m o,
                   match (if String.eqb (ProductID o) "" then None
                          else Some (ProductID o)) with
                   | Some k => incr k m | None => m end)
        vs (l_OrdersByProduct st).
Proof.
  revert st. induction vs as [|o vs IH]; intros st; [done|].
  simpl fold_left. destruct (IH (stats_step st o)) as [-> ->].
  split; [done|]. simpl. by destruct (String.eqb (ProductID o) "").
Qed.

(** X9. The breakdowns of the statistics count the orders: under a status
    the number of visited orders that have it, under a product identifier
    that is not empty the number of visited orders of that product; a status
    or product that no order has gets no entry, and orders without a product
    are not counted under any product. *)
Theorem GetStatistics_breakdowns_count_orders (vs : list OrderStatus) :
  (∀ status,
     OrdersByStatus (GetStatistics vs) !! status
     = tally (length (filter (λ o, Status o = status) vs)))
  ∧ (∀ productID,
       OrdersByProduct (GetStatistics vs) !! productID
       = if decide (productID = ""%string) then None
         else tally (length (filter (λ o, ProductID o = productID) vs))).
Proof.
  unfold GetStatistics. simpl.
  destruct (stats_loop_breakdowns vs stats_init) as [-> ->].
  split.
  - intros status. rewrite (tally_fold (λ o, Some (Status o))). simpl.
    rewrite lookup_empty. unfold tally.
    rewrite (list_filter_iff (λ o, Some (Status o) = Some status)
               (λ o, Status o = status)) by (intros o; split; congruence).
    by destruct (decide _).
  - intros productID.
    rewrite (tally_fold (λ o, if String.eqb (ProductID o) "" then None
                              else Some (ProductID o))).
    simpl. rewrite lookup_empty. unfold tally.
    destruct (decide (productID = ""%string)) as [->|Hne].
    + rewrite (list_filter_iff _ (λ _, False)).
      * clear. induction vs as [|o vs IH]; [done|].
        by rewrite filter_cons_False by tauto.
      * intros o. destruct (String.eqb_spec (ProductID o) ""); split;
          try done; congruence.
    + rewrite (list_filter_iff _ (λ o, ProductID o = productID)).
      * by destruct (decide _).
      * intros o. destruct (String.eqb_spec (ProductID o) ""); split;
          congruence.
Qed.

(** X10. The recent orders of the statistics are ten orders of the store,
    or all of them when the store has fewer; they are sorted by
    [last_updated] descending; and on a store of at most ten orders they
    are all the orders of the store. *)
Theorem RecentOrders_at_most_ten_sorted (sm : StatusManager)
    (vs : list OrderStatus) :
  ranges sm vs →
  length (RecentOrders (GetStatistics vs)) = (10 `min` size (orders sm))%nat
  ∧ StronglySorted not_older (RecentOrders (GetStatistics vs))
  ∧ (∀ order, order ∈ RecentOrders (GetStatistics vs) → stored sm order)
  ∧ ((size (orders sm) ≤ 10)%nat → RecentOrders (GetStatistics vs) ≡ₚ vs).
Proof.
  intros Hvs. rewrite RecentOrders_first_ten.
  split; [|split; [|split]].
  - rewrite sort_Slice_Permutation, length_take.
    by rewrite (ranges_length sm vs Hvs).
  - apply sort_Slice_StronglySorted.
  - intros order. rewrite sort_Slice_Permutation.
    intros Hin. apply (ranges_stored sm vs order Hvs).
    eapply elem_of_sublist; [exact Hin | apply sublist_take].
  - intros Hle. rewrite sort_Slice_Permutation, take_ge; [done|].
    by rewrite (ranges_length sm vs Hvs).
Qed.

Lemma RecentOrders_at_most_ten_sorted_witness :
  ranges eleven_store eleven_range
  ∧ length (RecentOrders (GetStatistics eleven_range))
    = (10 `min` size (orders eleven_store))%nat
  ∧ StronglySorted not_older (RecentOrders (GetStatistics eleven_range)).
Proof.
  assert (H : ranges eleven_store eleven_range) by apply eleven_ranges.
  split; [exact H|].
  destruct (RecentOrders_at_most_ten_sorted eleven_store eleven_range H)
    as (H1 & H2 & _).
  split; [exact H1 | exact H2].
Defined.

(** ** Orders of a time range, and the daily report *)

Lemma GetOrdersByDateRange_elem sm vs from to order :
  ranges sm vs →
  order ∈ GetOrdersByDateRange vs from to
  ↔ stored sm order ∧ from < LastUpdated order < to.
Proof.
  intros Hvs. unfold GetOrdersByDateRange.
  rewrite sort_Slice_Permutation, elem_of_List_filter.
  rewrite (ranges_stored sm vs order Hvs).
  unfold time.After, time.Before.
  rewrite andb_true_iff, !Z.ltb_lt. tauto.
Qed.

Lemma daily_fold l ms mp r :
  fold_left daily_step l (ms, mp, r)
  = (fold_left (λ m o, match Some (Status o) with
                       | Some k => incr k m | None => m end) l ms,
     fold_left (λ m o,
                  match (if String.eqb (ProductID o) "" then None
                         else Some (ProductID o)) with
                  | Some k => incr k m | None => m end) l mp,
     fold_left PrimFloat.add
       (PaymentAmount <$> List.filter revenue_bearing l) r).
Proof.
  revert ms mp r. induction l as [|o l IH]; intros ms mp r; [done|].
  simpl fold_left. rewrite IH. simpl.
  destruct (String.eqb (ProductID o) ""), (revenue_bearing o); done.
Qed.

(** X11. The daily report. A date that does not parse is answered with
    400. For a date that parses, the report lists exactly the orders of the
    store last updated strictly after midnight of that day and strictly
    before 23:59:59 of it, sorted by [last_updated] descending: an order
    updated exactly at midnight, or at 23:59:59 or later in the day, is not
    in the report. The total is the number of listed orders, the status
    breakdown counts the listed orders of each status, and the revenue is
    the [float64] sum over the listed orders whose status is
    [payment_completed] or [shipped]. *)
Theorem getDailyReport_lists_the_open_day (sm : StatusManager)
    (vs : list OrderStatus) (dateStr : string) :
  ranges sm vs →
  match time.Parse_date dateStr with
  | None =>
      getDailyReport vs dateStr
      = DailyBadRequest "Invalid date format. Use YYYY-MM-DD"
  | Some day =>
      ∃ report,
        getDailyReport vs dateStr = DailyOK report
        ∧ report_date report = dateStr
        ∧ (∀ order, order ∈ report_orders report
                    ↔ stored sm order
                      ∧ day < LastUpdated order < time.Add day end_of_day)
        ∧ StronglySorted not_older (report_orders report)
        ∧ report_total_orders report = length (report_orders report)
        ∧ (∀ status,
             report_orders_by_status report !! status
             = tally (length (filter (λ o, Status o = status)
                                (report_orders report))))
        ∧ report_total_revenue report
          = sum_float64 (PaymentAmount
                           <$> filter recognized (report_orders report))
  end.
Proof.
  intros Hvs. unfold getDailyReport.
  destruct (time.Parse_date dateStr) as [day|]; [|done].
  change (23 * time.Hour + 59 * time.Minute + 59 * time.Second)
    with end_of_day.
  rewrite daily_fold. eexists. split; [reflexivity|]. simpl.
  split; [done|]. split; [|split; [|split; [done|split]]].
  - intros order. by apply GetOrdersByDateRange_elem.
  - apply sort_Slice_StronglySorted.
  - intros status. rewrite (tally_fold (λ o, Some (Status o))). simpl.
    rewrite lookup_empty. unfold tally.
    rewrite (list_filter_iff (λ o, Some (Status o) = Some status)
               (λ o, Status o = status)) by (intros o; split; congruence).
    by destruct (decide _).
  - unfold sum_float64.
    by rewrite (filter_bool_Prop _ recognized)
      by apply revenue_bearing_recognized.
Qed.

Lemma getDailyReport_lists_the_open_day_witness :
  ranges jan15_store jan15_range
  ∧ match time.Parse_date "2024-01-15" with
    | None =>
        getDailyReport jan15_range "2024-01-15"
        = DailyBadRequest "Invalid date format. Use YYYY-MM-DD"
    | Some day =>
        ∃ report,
          getDailyReport jan15_range "2024-01-15" = DailyOK report
          ∧ report_date report = "2024-01-15"%string
          ∧ (∀ order, order ∈ report_orders report
                      ↔ stored jan15_store order
                        ∧ day < LastUpdated order < time.Add day end_of_day)
          ∧ StronglySorted not_older (report_orders report)
          ∧ report_total_orders report = length (report_orders report)
          ∧ (∀ status,
               report_orders_by_status report !! status
               = tally (length (filter (λ o, Status o = status)
                                  (report_orders report))))
          ∧ report_total_revenue report
            = sum_float64 (PaymentAmount
                             <$> filter recognized (report_orders report))
    end.
Proof.
  assert (H : ranges jan15_store jan15_range) by (unfold ranges; reflexivity).
  split; [exact H|].
  exact (getDailyReport_lists_the_open_day jan15_store jan15_range
           "2024-01-15" H).
Defined.

Lemma GetFilteredOrders_unpaginated_elem sm vs filter order :
  ranges sm vs →
  OrderFilter.Offset filter ≤ 0 → OrderFilter.Limit filter ≤ 0 →
  order ∈ GetFilteredOrders vs filter
  ↔ stored sm order ∧ satisfies filter order.
Proof.
  intros Hvs Hoff Hlim. unfold GetFilteredOrders.
  rewrite paginate_page. unfold page.
  replace (Z.to_nat (OrderFilter.Offset filter)) with 0%nat by lia.
  destruct (Z.ltb_spec 0 (OrderFilter.Limit filter)); [lia|].
  rewrite drop_0, sort_Slice_Permutation, elem_of_List_filter.
  by rewrite filter_keeps_satisfies, (ranges_stored sm vs order Hvs).
Qed.

(** X12. The daily report and the listing filtered to the same day differ
    at the two ends of the day. For a date that parses to a day other than
    the zero time, the listing with that date as [date_from] and [date_to]
    holds the orders of the daily report and, besides them, exactly the
    orders of the store last updated at midnight of the day or at its
    23:59:59 sharp. *)
Theorem daily_report_and_day_listing_differ_at_the_ends (sm : StatusManager)
    (vs : list OrderStatus) (dateStr : string) (day : time.Time)
    (order : OrderStatus) :
  ranges sm vs →
  time.Parse_date dateStr = Some day →
  day ≠ 0 →
  order ∈ GetFilteredOrders vs (day_filter dateStr)
  ↔ order ∈ GetOrdersByDateRange vs day (time.Add day end_of_day)
    ∨ (stored sm order
       ∧ (LastUpdated order = day
          ∨ LastUpdated order = time.Add day end_of_day)).
Proof.
  intros Hvs Hday Hnz.
  rewrite (GetFilteredOrders_unpaginated_elem sm vs) by done.
  rewrite (GetOrdersByDateRange_elem sm vs) by done.
  unfold satisfies, in_window, day_filter. simpl. rewrite Hday.
  unfold time.Add, time.Time in *.
  assert (Hend : 0 ≤ end_of_day) by done.
  split.
  - intros (Hst & _ & _ & [Hz|Hlo] & Hhi); [done|].
    destruct (decide (LastUpdated order = day)) as [Heq|Hne];
      [right; split; [done | by left]|].
    destruct (decide (LastUpdated order = day + end_of_day)) as [Heq'|Hne'];
      [right; split; [done | by right]|].
    left. split; [done | lia].
  - intros [(Hst & H1 & H2) | (Hst & [H|H])];
      (split; [done|]); (split; [by left|]); (split; [by left|]);
      (split; [right; lia | lia]).
Qed.

Lemma daily_report_and_day_listing_differ_at_the_ends_witness :
  ranges jan15_store jan15_range
  ∧ time.Parse_date "2024-01-15" = Some (time.Date 2024 1 15)
  ∧ time.Date 2024 1 15 ≠ 0
  ∧ (created_at "X1" (time.Date 2024 1 15 + 10)
       ∈ GetFilteredOrders jan15_range (day_filter "2024-01-15")
     ↔ created_at "X1" (time.Date 2024 1 15 + 10)
         ∈ GetOrdersByDateRange jan15_range (time.Date 2024 1 15)
             (time.Add (time.Date 2024 1 15) end_of_day)
       ∨ (stored jan15_store (created_at "X1" (time.Date 2024 1 15 + 10))
          ∧ (LastUpdated (created_at "X1" (time.Date 2024 1 15 + 10))
             = time.Date 2024 1 15
             ∨ LastUpdated (created_at "X1" (time.Date 2024 1 15 + 10))
               = time.Add (time.Date 2024 1 15) end_of_day))).
Proof.
  assert (H : ranges jan15_store jan15_range) by (unfold ranges; reflexivity).
  assert (Hp : time.Parse_date "2024-01-15" = Some (time.Date 2024 1 15))
    by reflexivity.
  assert (Hnz : time.Date 2024 1 15 ≠ 0) by discriminate.
  split; [exact H|]. split; [exact Hp|]. split; [exact Hnz|].
  exact (daily_report_and_day_listing_differ_at_the_ends jan15_store
           jan15_range "2024-01-15" (time.Date 2024 1 15)
           (created_at "X1" (time.Date 2024 1 15 + 10)) H Hp Hnz).
Defined.

(** ** The listing handlers and pagination *)

Lemma satisfies_status_only status order :
  satisfies {| OrderFilter.Status := status; OrderFilter.ProductID := "";
               OrderFilter.DateFrom := ""; OrderFilter.DateTo := "";
               OrderFilter.Limit := 0; OrderFilter.Offset := 0 |} order
  ↔ status = ""%string ∨ Status order = status.
Proof. unfold satisfies, in_window. simpl. tauto. Qed.

Lemma satisfies_product_only productID order :
  satisfies {| OrderFilter.Status := ""; OrderFilter.ProductID := productID;
               OrderFilter.DateFrom := ""; OrderFilter.DateTo := "";
               OrderFilter.Limit := 0; OrderFilter.Offset := 0 |} order
  ↔ productID = ""%string ∨ ProductID order = productID.
Proof. unfold satisfies, in_window. simpl. tauto. Qed.

(** X13. The handlers that list by status and by product answer all the
    orders of the store with that status, respectively that product: none
    is left out, none is cut off by pagination, no other order is listed;
    the list is sorted by [last_updated] descending and the count is its
    length. *)
Theorem getOrdersByStatus_and_ByProduct_list_all_matches (sm : StatusManager)
    (vs : list OrderStatus) (key : string) :
  ranges sm vs →
  key ≠ ""%string →
  ((∀ order, order ∈ (getOrdersByStatus vs key).1.1
             ↔ stored sm order ∧ Status order = key)
   ∧ StronglySorted not_older (getOrdersByStatus vs key).1.1
   ∧ (getOrdersByStatus vs key).1.2
     = length (filter (λ o, Status o = key) vs))
  ∧ ((∀ order, order ∈ (getOrdersByProduct vs key).1.1
               ↔ stored sm order ∧ ProductID order = key)
     ∧ StronglySorted not_older (getOrdersByProduct vs key).1.1
     ∧ (getOrdersByProduct vs key).1.2
       = length (filter (λ o, ProductID o = key) vs)).
Proof.
  intros Hvs Hkey. unfold getOrdersByStatus, getOrdersByProduct. simpl.
  split; (split; [|split]).
  - intros order.
    rewrite (GetFilteredOrders_unpaginated_elem sm vs) by done.
    rewrite satisfies_status_only. intuition.
  - unfold GetFilteredOrders. rewrite paginate_page.
    apply page_StronglySorted, sort_Slice_StronglySorted.
  - unfold GetFilteredOrders. rewrite paginate_page. unfold page. simpl.
    rewrite sort_Slice_Permutation.
    rewrite (filter_bool_Prop _ (satisfies _)) by apply filter_keeps_satisfies.
    f_equal. apply list_filter_iff. intros o.
    rewrite satisfies_status_only. intuition.
  - intros order.
    rewrite (GetFilteredOrders_unpaginated_elem sm vs) by done.
    rewrite satisfies_product_only. intuition.
  - unfold GetFilteredOrders. rewrite paginate_page.
    apply page_StronglySorted, sort_Slice_StronglySorted.
  - unfold GetFilteredOrders. rewrite paginate_page. unfold page. simpl.
    rewrite sort_Slice_Permutation.
    rewrite (filter_bool_Prop _ (satisfies _)) by apply filter_keeps_satisfies.
    f_equal. apply list_filter_iff. intros o.
    rewrite satisfies_product_only. intuition.
Qed.

Lemma getOrdersByStatus_and_ByProduct_list_all_matches_witness :
  ranges jan15_store jan15_range
  ∧ "created"%string ≠ ""%string
  ∧ (getOrdersByStatus jan15_range "created").1.2
    = length (filter (λ o, Status o = "created"%string) jan15_range).
Proof.
  assert (H : ranges jan15_store jan15_range) by (unfold ranges; reflexivity).
  assert (Hne : "created"%string ≠ ""%string) by discriminate.
  split; [exact H|]. split; [exact Hne|].
  exact (proj2 (proj2 (proj1
    (getOrdersByStatus_and_ByProduct_list_all_matches jan15_store
       jan15_range "created" H Hne)))).
Defined.

Example getOrdersByStatus_created :
  OrderID <$> (getOrdersByStatus jan15_range "created").1.1 = ["X2"; "X1"]
  ∧ (getOrdersByStatus jan15_range "created").1.2 = 2%nat.
Proof. split; vm_compute; reflexivity. Qed.

Lemma GetFilteredOrders_with_page vs filter offset limit :
  GetFilteredOrders vs (with_page filter offset limit)
  = page offset limit
      (sort_Slice newer
         (List.filter (filter_keeps filter (filter_dateFrom filter)
                         (filter_dateTo filter)) vs)).
Proof. unfold GetFilteredOrders. by rewrite paginate_page. Qed.

(** X14. The size of a page. If [n] orders satisfy the filter, the listing
    holds the [n] minus [offset] orders that remain after the offset (none
    when the offset reaches [n]; all [n] when the offset is not positive),
    cut down to [limit] of them when the limit is positive. *)
Theorem GetFilteredOrders_page_size (vs : list OrderStatus)
    (filter : OrderFilter.t) :
  length (GetFilteredOrders vs filter)
  = if 0 <? OrderFilter.Limit filter
    then (Z.to_nat (OrderFilter.Limit filter)
          `min` (length (base.filter (satisfies filter) vs)
                 - Z.to_nat (OrderFilter.Offset filter)))%nat
    else (length (base.filter (satisfies filter) vs)
          - Z.to_nat (OrderFilter.Offset filter))%nat.
Proof.
  unfold GetFilteredOrders. rewrite paginate_page. unfold page.
  rewrite <- (filter_bool_Prop _ (satisfies filter) vs
                (filter_keeps_satisfies filter)).
  destruct (0 <? OrderFilter.Limit filter).
  - by rewrite length_take, length_drop, sort_Slice_Permutation.
  - by rewrite length_drop, sort_Slice_Permutation.
Qed.

(** X15. Pages tile the listing. On one enumeration of the store, a page of
    [limit] orders from [offset], followed by the listing from
    [offset + limit] on, is the listing from [offset] on; and it is followed
    by the next page of [limit'] orders to give the page of
    [limit + limit'] orders. *)
Theorem GetFilteredOrders_pages_tile (vs : list OrderStatus)
    (filter : OrderFilter.t) (offset limit limit' : Z) :
  0 ≤ offset → 0 < limit → 0 < limit' →
  GetFilteredOrders vs (with_page filter offset limit)
  ++ GetFilteredOrders vs (with_page filter (offset + limit) 0)
  = GetFilteredOrders vs (with_page filter offset 0)
  ∧ GetFilteredOrders vs (with_page filter offset limit)
    ++ GetFilteredOrders vs (with_page filter (offset + limit) limit')
    = GetFilteredOrders vs (with_page filter offset (limit + limit')).
Proof.
  intros Hoff Hlim Hlim'. rewrite !GetFilteredOrders_with_page.
  set (sorted := sort_Slice newer _). unfold page.
  destruct (Z.ltb_spec 0 limit); [|lia].
  destruct (Z.ltb_spec 0 limit'); [|lia].
  destruct (Z.ltb_spec 0 (limit + limit')); [|lia].
  simpl.
  replace (Z.to_nat (offset + limit))
    with (Z.to_nat offset + Z.to_nat limit)%nat by lia.
  replace (Z.to_nat (limit + limit'))
    with (Z.to_nat limit + Z.to_nat limit')%nat by lia.
  rewrite <- !drop_drop. split.
  - apply take_drop.
  - by rewrite take_take_drop.
Qed.

Lemma GetFilteredOrders_pages_tile_witness :
  0 ≤ 0 ∧ 0 < 1 ∧ 0 < 2
  ∧ GetFilteredOrders jan15_range (with_page no_filter 0 1)
    ++ GetFilteredOrders jan15_range (with_page no_filter (0 + 1) 0)
    = GetFilteredOrders jan15_range (with_page no_filter 0 0)
  ∧ GetFilteredOrders jan15_range (with_page no_filter 0 1)
    ++ GetFilteredOrders jan15_range (with_page no_filter (0 + 1) 2)
    = GetFilteredOrders jan15_range (with_page no_filter 0 (1 + 2)).
Proof.
  assert (H0 : 0 ≤ 0) by lia.
  assert (H1 : 0 < 1) by lia.
  assert (H2 : 0 < 2) by lia.
  split; [exact H0|]. split; [exact H1|]. split; [exact H2|].
  exact (GetFilteredOrders_pages_tile jan15_range no_filter 0 1 2 H0 H1 H2).
Defined.

(** ** Search, below the handler *)

Lemma Contains_empty s : Contains s "" = true.
Proof. by destruct s. Qed.

(** X16. The search method sorts its result by [last_updated] descending
    and returns each matching order once. Given the empty query, which only
    the handler rejects, the method itself returns every order of the
    store. *)
Theorem SearchOrders_sorted_and_empty_query_matches_all
    (vs : list OrderStatus) (query : string) :
  StronglySorted not_older (SearchOrders vs query)
  ∧ SearchOrders vs query
    ≡ₚ List.filter (search_matches (ToLower query)) vs
  ∧ SearchOrders vs "" ≡ₚ vs.
Proof.
  unfold SearchOrders. split; [apply sort_Slice_StronglySorted|].
  split; [apply sort_Slice_Permutation|].
  rewrite sort_Slice_Permutation. simpl ToLower.
  induction vs as [|o vs IH]; [done|]. simpl.
  unfold search_matches at 1. rewrite Contains_empty. simpl.
  by rewrite IH.
Qed.

(** ** The query parameters of the filtered listing *)

Lemma Atoi_range s n : Atoi s = Some n → - 2 ^ 63 ≤ n < 2 ^ 63.
Proof.
  unfold Atoi. destruct (match s with EmptyString => _ | _ => _ end)
    as [neg body].
  destruct body; [discriminate|].
  destruct (digits_value 0 _); [|discriminate].
  destruct (_ && _) eqn:Hr; [|discriminate].
  apply andb_true_iff in Hr as [H1%Z.leb_le H2%Z.ltb_lt].
  intros [= <-]. lia.
Qed.

(** X17. The handler of the filtered listing answers, with the orders,
    their number and the filter it used. A [limit] or [offset] parameter
    that is absent or is not a decimal integer in the range of [int] enters
    the filter as 0, so it constrains nothing: the answer is the answer to
    the request without that parameter. A limit that reads as a positive
    number bounds the count. *)
Theorem getFilteredOrders_parameters (vs : list OrderStatus)
    (status product_id date_from date_to limit offset : string) :
  (getFilteredOrders vs status product_id date_from date_to limit offset).1.2
  = length
      (getFilteredOrders vs status product_id date_from date_to limit offset).1.1
  ∧ (Atoi limit = None →
     getFilteredOrders vs status product_id date_from date_to limit offset
     = getFilteredOrders vs status product_id date_from date_to "" offset)
  ∧ (Atoi offset = None →
     getFilteredOrders vs status product_id date_from date_to limit offset
     = getFilteredOrders vs status product_id date_from date_to limit "")
  ∧ (∀ n, Atoi limit = Some n → 0 < n →
       (Z.of_nat
          (getFilteredOrders vs status product_id date_from date_to
             limit offset).1.2 ≤ n)%Z
       ∧ OrderFilter.Limit
           (getFilteredOrders vs status product_id date_from date_to
              limit offset).2 = n).
Proof.
  unfold getFilteredOrders. simpl. split; [done|].
  split; [|split].
  - intros Hl. unfold int_param. rewrite Hl. simpl.
    by destruct (String.eqb limit "").
  - intros Ho. unfold int_param at 2 4 6. rewrite Ho. simpl.
    by destruct (String.eqb offset "").
  - intros n Hn Hpos.
    assert (Hparam : int_param limit = n).
    { unfold int_param. rewrite Hn.
      destruct (String.eqb_spec limit "") as [->|]; [discriminate|done]. }
    split; [|exact Hparam].
    rewrite GetFilteredOrders_page_size. simpl. rewrite Hparam.
    destruct (Z.ltb_spec 0 n); lia.
Qed.

Example Atoi_examples :
  Atoi "25" = Some 25 ∧ Atoi "-3" = Some (-3) ∧ Atoi "+7" = Some 7
  ∧ Atoi "" = None ∧ Atoi "-" = None ∧ Atoi "1e3" = None
  ∧ Atoi " 5" = None ∧ Atoi "9223372036854775807" = Some (2 ^ 63 - 1)
  ∧ Atoi "9223372036854775808" = None
  ∧ Atoi "-9223372036854775808" = Some (- 2 ^ 63).
Proof. repeat split; vm_compute; reflexivity. Qed.

(** ** Processing times *)

Lemma stage_fold c rest i0 (acc : gmap nat (list time.Duration)) k :
  fold_left (stage_step c) (zip (seq i0 (length rest)) rest) acc !! k
  = match rest !! (k - S i0)%nat with
    | Some event =>
        if decide (S i0 ≤ k)%nat
        then Some (default [] (acc !! k) ++ [Time_Sub (Timestamp event) c])
        else acc !! k
    | None => acc !! k
    end.
Proof.
  revert i0 acc. induction rest as [|ev rest IH]; intros i0 acc.
  - simpl. by destruct (k - S i0)%nat.
  - simpl. rewrite IH. clear IH.
    assert (Hstep : stage_step c acc (i0, ev) !! k
                    = if decide (k = S i0)
                      then Some (default [] (acc !! k)
                                 ++ [Time_Sub (Timestamp ev) c])
                      else acc !! k).
    { unfold stage_step. simpl. destruct (decide (k = S i0)) as [->|Hne].
      - by rewrite lookup_insert_eq.
      - by rewrite lookup_insert_ne. }
    rewrite Hstep. clear Hstep.
    destruct (decide (k = S i0)) as [->|Hne].
    + replace (S i0 - S i0)%nat with 0%nat by lia.
      replace (S i0 - S (S i0))%nat with 0%nat by lia.
      change ((ev :: rest) !! 0%nat) with (Some ev).
      destruct (decide (S i0 ≤ S i0)%nat); [|lia].
      destruct (decide (S (S i0) ≤ S i0)%nat); [lia|].
      by destruct (rest !! 0%nat).
    + destruct (decide (S i0 ≤ k)%nat) as [Hle|Hgt].
      * replace (k - S i0)%nat with (S (k - S (S i0))) by lia.
        change ((ev :: rest) !! S (k - S (S i0)))
          with (rest !! (k - S (S i0))%nat).
        destruct (decide (S (S i0) ≤ k)%nat); [|lia].
        by destruct (rest !! _).
      * replace (k - S (S i0))%nat with 0%nat by lia.
        replace (k - S i0)%nat with 0%nat by lia.
        change ((ev :: rest) !! 0%nat) with (Some ev).
        destruct (decide (S (S i0) ≤ k)%nat); [lia|].
        by destruct (rest !! 0%nat).
Qed.

Lemma processing_step_lookup acc order k :
  processing_step acc order !! k
  = match stage_duration k order with
    | Some d => Some (default [] (acc !! k) ++ [d])
    | None => acc !! k
    end.
Proof.
  unfold processing_step, stage_duration.
  destruct (Events order) as [|first rest]; [done|].
  destruct rest as [|second rest].
  - simpl. by destruct k.
  - replace (2 <=? length (first :: second :: rest))%nat with true by done.
    rewrite stage_fold. destruct k as [|j].
    + simpl. by destruct (decide (1 ≤ 0)%nat); [lia|].
    + replace (S j - 1)%nat with j by lia.
      destruct ((second :: rest) !! j); simpl; [|done].
      destruct (decide (1 ≤ S j)%nat); [done|lia].
Qed.

Lemma processing_fold vs acc k :
  fold_left processing_step vs acc !! k
  = match omap (stage_duration k) vs with
    | [] => acc !! k
    | ds => Some (default [] (acc !! k) ++ ds)
    end.
Proof.
  revert acc. induction vs as [|o vs IH]; intros acc; [done|].
  simpl fold_left. rewrite IH, processing_step_lookup.
  change (omap (stage_duration k) (o :: vs))
    with (match stage_duration k o with
          | Some y => y :: omap (stage_duration k) vs
          | None => omap (stage_duration k) vs
          end).
  destruct (stage_duration k o) as [d|]; [|done].
  destruct (omap (stage_duration k) vs) as [|d' ds];
    cbn [default from_option id]; [done|].
  by rewrite <- app_assoc.
Qed.

Lemma wrap64_add_l a d : wrap64 (wrap64 a + d) = wrap64 (a + d).
Proof.
  unfold wrap64. f_equal.
  replace ((a + 2 ^ 63) mod 2 ^ 64 - 2 ^ 63 + d + 2 ^ 63)
    with ((a + 2 ^ 63) mod 2 ^ 64 + d) by lia.
  rewrite Zplus_mod_idemp_l. f_equal. lia.
Qed.

Lemma wrapped_total ds a :
  fold_left (λ total d, wrap64 (total + d)) ds (wrap64 a)
  = wrap64 (a + Zsum ds).
Proof.
  revert a. induction ds as [|d ds IH]; intros a; simpl.
  - by rewrite Z.add_0_r.
  - rewrite wrap64_add_l, IH. f_equal. lia.
Qed.

Lemma average_Zsum ds :
  average ds = Z.quot (wrap64 (Zsum ds)) (Z.of_nat (length ds)).
Proof.
  unfold average. change 0 with (wrap64 0) at 1.
  by rewrite wrapped_total.
Qed.

Lemma Zsum_Permutation l l' : l ≡ₚ l' → Zsum l = Zsum l'.
Proof.
  unfold Zsum. induction 1; simpl; lia.
Qed.

Lemma ProcessingTime_lookup vs k :
  ProcessingTime vs !! k
  = match omap (stage_duration k) vs with
    | [] => None
    | ds => Some (Z.quot (wrap64 (Zsum ds)) (Z.of_nat (length ds)))
    end.
Proof.
  unfold ProcessingTime. rewrite lookup_omap, processing_fold, lookup_empty.
  destruct (omap (stage_duration k) vs) as [|d ds]; [done|].
  simpl. by rewrite average_Zsum.
Qed.

(** X18. The processing-time table. For every stage [k] the table holds the
    average, over the orders of the store that have an event number [k], of
    the time from the order's first event to that event: the [int64] sum of
    those durations divided, with truncation toward zero, by their number.
    A stage that no order reaches, and stage 0, has no entry. The table
    does not depend on the order in which the store is visited. *)
Theorem ProcessingTime_is_the_average_per_stage (vs : list OrderStatus) :
  (∀ k,
     ProcessingTime vs !! k
     = match omap (stage_duration k) vs with
       | [] => None
       | ds => Some (Z.quot (wrap64 (Zsum ds)) (Z.of_nat (length ds)))
       end)
  ∧ ProcessingTime vs !! 0%nat = None
  ∧ (∀ vs', vs ≡ₚ vs' → ProcessingTime vs' = ProcessingTime vs).
Proof.
  split; [apply ProcessingTime_lookup|]. split.
  - rewrite ProcessingTime_lookup.
    replace (omap (stage_duration 0) vs) with (@nil time.Duration); [done|].
    induction vs as [|o vs IH]; [done|]. simpl.
    unfold stage_duration at 1. by destruct (Events o).
  - intros vs' Hp. apply map_eq. intros k.
    rewrite !ProcessingTime_lookup.
    assert (Hds : omap (stage_duration k) vs ≡ₚ omap (stage_duration k) vs')
      by (by rewrite Hp).
    pose proof (Zsum_Permutation _ _ Hds) as Hsum.
    pose proof (Permutation_length Hds) as Hlen.
    destruct (omap (stage_duration k) vs) as [|d ds],
             (omap (stage_duration k) vs') as [|d' ds'];
      try done.
    cbv beta iota zeta. f_equal.
    f_equal; [f_equal; symmetry; exact Hsum | f_equal; symmetry; exact Hlen].
Qed.

Example ProcessingTime_scenario_A :
  ProcessingTime (map_to_list (orders scenario_A.1)).*2 !! 1%nat = Some 2
  ∧ ProcessingTime (map_to_list (orders scenario_A.1)).*2 !! 2%nat = Some 4
  ∧ ProcessingTime (map_to_list (orders scenario_A.1)).*2 !! 3%nat = Some 6
  ∧ ProcessingTime (map_to_list (orders scenario_A.1)).*2 !! 4%nat = None.
Proof. repeat split; vm_compute; reflexivity. Qed.

(** ** What is never written *)

Lemma live_elem net conn cs : conn ∈ live net cs → conn ∈ cs ∧ conn ∉ gone net.
Proof.
  unfold live. rewrite elem_of_List_filter, negb_true_iff.
  intros [Hin Hup]. split; [done|]. by apply bool_decide_eq_false in Hup.
Qed.




Lemma subscribers_AddClient sm net oid conn k :
  subscribers (AddClient sm net oid conn).1 k
  = if decide (k = oid) then subscribers sm oid ++ [conn]
    else subscribers sm k.
Proof.
  unfold AddClient, subscribers.
  destruct (decide (k = oid)) as [->|Hne];
    destruct (orders sm !! oid); simpl;
    rewrite ?lookup_insert_eq, ?lookup_insert_ne by done; try done;
    by destruct (clients sm !! oid).
Qed.

Lemma accounted_step st ops op :
  well_formed st.1 → accounted st ops → accounted (step st op) (ops ++ [op]).
Proof.
  destruct st as [sm net]. intros Hwf [Hreg Hwire]. simpl in *.
  destruct op as [d t1 t2|oid c|oid|c]; simpl.
  - unfold consumeEvent.
    destruct (as_string (d !! "order_id")) as [oid|] eqn:Hid;
      [|split; intros; apply elem_of_app; left; eauto].
    destruct (as_string (d !! "event_type")) as [k|] eqn:Hk;
      [|split; intros; apply elem_of_app; left; eauto].
    apply as_string_Some in Hid, Hk.
    pose proof (well_formed_UpdateOrderStatus sm net oid k d t1 t2 Hid Hk Hwf)
      as Hwf'.
    destruct (UpdateOrderStatus_pushes_to_live_subscribers sm net oid k d t1 t2)
      as (Hw & _ & Hsubs & Hframe).
    assert (Hupd : OrderID (updated_order sm oid k d t1 t2) = oid).
    { apply (Hwf' oid). by rewrite UpdateOrderStatus_orders, lookup_insert_eq. }
    split.
    + intros key conn Hin. apply elem_of_app. left. apply Hreg.
      destruct (decide (key = oid)) as [->|Hne].
      * rewrite Hsubs in Hin. by apply live_elem in Hin as [? _].
      * unfold subscribers in *. by rewrite Hframe in Hin.
    + intros conn message. rewrite Hw, elem_of_app.
      intros [Hold|Hnew]; apply elem_of_app; left.
      * by apply Hwire.
      * apply list_elem_of_fmap in Hnew as (c & [= -> ->] & Hc).
        rewrite Hupd. apply Hreg. by apply live_elem in Hc as [? _].
  - split.
    + intros key conn. rewrite subscribers_AddClient, elem_of_app.
      destruct (decide (key = oid)) as [->|Hne].
      * rewrite elem_of_app, list_elem_of_singleton.
        intros [Hin| ->]; [left; by apply Hreg | right].
        apply list_elem_of_here.
      * intros Hin. left. by apply Hreg.
    + intros conn message. unfold AddClient, WriteMessage.
      destruct (orders sm !! oid) as [o|] eqn:Ho; simpl;
        [|intros Hin; apply elem_of_app; left; by apply Hwire].
      destruct (bool_decide (c ∈ gone net)); simpl;
        [intros Hin; apply elem_of_app; left; by apply Hwire|].
      rewrite elem_of_app, list_elem_of_singleton.
      intros [Hin|[= -> ->]]; apply elem_of_app.
      * left. by apply Hwire.
      * right. destruct (Hwf oid o Ho) as [-> _]. apply list_elem_of_here.
  - split.
    + intros key conn Hin. apply elem_of_app. left. apply Hreg.
      unfold DeleteOrder, subscribers in *.
      destruct (orders sm !! oid); simpl in *; [|done].
      destruct (decide (key = oid)) as [->|Hne].
      * rewrite lookup_delete_eq in Hin. by apply elem_of_nil in Hin.
      * by rewrite lookup_delete_ne in Hin.
    + intros conn message Hin. apply elem_of_app. left. by apply Hwire.
  - split; intros; apply elem_of_app; left; eauto.
Qed.

Lemma accounted_run ops : accounted (run initial ops) ops.
Proof.
  induction ops as [|op ops IH] using rev_ind.
  - split; simpl.
    + intros k c. unfold subscribers. simpl. rewrite lookup_empty.
      by intros ?%elem_of_nil.
    + by intros c m ?%elem_of_nil.
  - unfold run. rewrite fold_left_app. simpl.
    apply accounted_step; [apply well_formed_run | exact IH].
Qed.

(** X20. No excess delivery. In every state the service can reach, each
    message that was written went to a connection that had subscribed to
    the order the message is a state of, and each registered connection of
    an order had subscribed to that order. *)
Theorem every_message_goes_to_a_subscriber_of_its_order (ops : list Op)
    (conn : Conn) (message : OrderStatus) :
  (conn, message) ∈ wire (run initial ops).2 →
  Subscribe (OrderID message) conn ∈ ops.
Proof. intros Hin. by apply (accounted_run ops). Qed.

Lemma every_message_goes_to_a_subscriber_of_its_order_witness :
  (1%nat, updated_order NewStatusManager "Y" "PaymentCompleted"
            payment_with_amount 1 2)
    ∈ wire (run initial [Subscribe "Y" 1%nat;
                         Consume payment_with_amount 1 2]).2
  ∧ Subscribe "Y" 1%nat
      ∈ [Subscribe "Y" 1%nat; Consume payment_with_amount 1 2].
Proof.
  assert (H : (1%nat, updated_order NewStatusManager "Y" "PaymentCompleted"
                        payment_with_amount 1 2)
                ∈ wire (run initial [Subscribe "Y" 1%nat;
                                     Consume payment_with_amount 1 2]).2).
  { replace (wire (run initial [Subscribe "Y" 1%nat;
                               Consume payment_with_amount 1 2]).2)
      with [(1%nat, updated_order NewStatusManager "Y" "PaymentCompleted"
                      payment_with_amount 1 2)]
      by (vm_compute; reflexivity).
    apply list_elem_of_here. }
  split; [exact H|].
  exact (every_message_goes_to_a_subscriber_of_its_order
           [Subscribe "Y" 1%nat; Consume payment_with_amount 1 2]
           1%nat _ H).
Defined.

(** ** The store under events *)

Lemma switch_LastUpdated k d o :
  LastUpdated (switch_eventType k d o) = LastUpdated o.
Proof.
  unfold switch_eventType.
  repeat (destruct (String.eqb k _); [repeat case_match; reflexivity|]).
  reflexivity.
Qed.

(** X21. Events only ever add orders. After any sequence of events the
    store holds an order for exactly the identifiers it held before and the
    identifiers the events were addressed to: the first event for an unseen
    identifier creates its order, and no event removes or evicts one. *)
Theorem events_only_add_orders (st : StatusManager * Net) (evs : list Event) :
  dom (orders (apply_events st evs).1)
  = dom (orders st.1) ∪ list_to_set (ev_orderID <$> evs).
Proof.
  revert st. induction evs as [|e evs IH]; intros st.
  - simpl. by rewrite (right_id_L ∅ (∪)).
  - change (apply_events st (e :: evs))
      with (apply_events (apply_event st e) evs).
    rewrite IH. unfold apply_event.
    rewrite UpdateOrderStatus_orders, dom_insert_L.
    rewrite fmap_cons, list_to_set_cons.
    rewrite (comm_L (∪) {[ev_orderID e]} (dom (orders st.1))).
    by rewrite <- (assoc_L (∪)).
Qed.

(** X22. The time of the last update of an order is the second clock
    reading of the last event applied to it, and the last record of its
    history is the record of that event, stamped with the first reading;
    events applied afterwards to other orders change neither. *)
Theorem last_updated_is_the_time_of_the_last_event (st : StatusManager * Net)
    (pre post : list Event) (e : Event) :
  Forall (λ e', ev_orderID e' ≠ ev_orderID e) post →
  ∃ order,
    orders (apply_events st (pre ++ e :: post)).1 !! ev_orderID e = Some order
    ∧ LastUpdated order = ev_now2 e
    ∧ last (Events order) = Some (record_of e).
Proof.
  intros Hpost. unfold apply_events. rewrite fold_left_app. simpl.
  fold (apply_events st pre).
  fold (apply_events (apply_event (apply_events st pre) e) post).
  rewrite apply_events_lookup_other by exact Hpost.
  unfold apply_event. rewrite UpdateOrderStatus_orders, lookup_insert_eq.
  eexists. split; [reflexivity|]. split.
  - unfold updated_order. by rewrite switch_LastUpdated.
  - rewrite updated_order_Events. apply last_snoc.
Qed.

Lemma last_updated_is_the_time_of_the_last_event_witness :
  Forall (λ e', ev_orderID e' ≠ ev_orderID shipping_of_X1) [creation_of_X]
  ∧ ∃ order,
      orders (apply_events (jan15_store, net0)
                ([notification_of_X1] ++ shipping_of_X1 :: [creation_of_X])).1
        !! ev_orderID shipping_of_X1 = Some order
      ∧ LastUpdated order = ev_now2 shipping_of_X1
      ∧ last (Events order) = Some (record_of shipping_of_X1).
Proof.
  assert (H : Forall (λ e', ev_orderID e' ≠ ev_orderID shipping_of_X1)
                [creation_of_X])
    by (repeat constructor; discriminate).
  split; [exact H|].
  exact (last_updated_is_the_time_of_the_last_event (jan15_store, net0)
           [notification_of_X1] [creation_of_X] shipping_of_X1 H).
Defined.
